(** * botivate-ai: the orchestration graph (agent.py) and the sheet
      ingestion (script.py), embedded as Rocq functions.

    Python text is modelled as [string], one character per code point,
    for the code points below 256; on these the character classes of
    [str.isdigit], [str.isalnum], [str.strip] and [float] are Python's
    own.  Text with code points from 256 on is not covered.  Python
    integers are
    unbounded and are modelled as [Z].  A dict is an association list
    in insertion order.  The language model, the agent executor and the
    SQL tool are outside the repository: they are oracles gathered in a
    record, indexed by the number of nodes run so far, so that
    quantifying over the record covers every sequence of answers. *)

From Stdlib Require Import String Ascii List ZArith Bool Lia.
From Stdlib Require Import DecimalString Permutation.
Import ListNotations.

Local Open Scope string_scope.
Local Open Scope list_scope.

(** ** Python built-ins on text *)

Module PyStr.

(** [s.startswith(p)] *)
Definition startswith (p s : string) : bool := String.prefix p s.

(** [needle in hay] *)
Fixpoint contains (needle hay : string) : bool :=
  startswith needle hay ||
  match hay with
  | EmptyString => false
  | String _ rest => contains needle rest
  end.

Definition char_in (lo hi : nat) (c : ascii) : bool :=
  (lo <=? nat_of_ascii c)%nat && (nat_of_ascii c <=? hi)%nat.

(** [c.isdecimal()]: the digits 0 to 9. *)
Definition isdecimal_char (c : ascii) : bool := char_in 48 57 c.

(** [c.isdigit()]: the digits 0 to 9 and the superscripts two, three
    and one. *)
Definition isdigit_char (c : ascii) : bool :=
  char_in 48 57 c || char_in 178 179 c || char_in 185 185 c.

(** [c.isnumeric()]: the above and the fractions quarter, half and
    three quarters. *)
Definition isnumeric_char (c : ascii) : bool :=
  isdigit_char c || char_in 188 190 c.

(** [c.isalpha()]: the letters A to Z and a to z, the ordinal
    indicators, the micro sign and the accented letters. *)
Definition isalpha_char (c : ascii) : bool :=
  char_in 65 90 c || char_in 97 122 c || char_in 170 170 c
  || char_in 181 181 c || char_in 186 186 c || char_in 192 214 c
  || char_in 216 246 c || char_in 248 255 c.

(** [c.isalnum()] *)
Definition isalnum_char (c : ascii) : bool := isalpha_char c || isnumeric_char c.

(** The characters [str.strip()] removes: tab to carriage return, the
    four separators 28..31, the space, the next-line control and the
    no-break space. *)
Definition isspace_char (c : ascii) : bool :=
  char_in 9 13 c || char_in 28 32 c || char_in 133 133 c || char_in 160 160 c.

(** The blanks [float] removes at both ends: those of [str.strip]
    but the four separators 28..31. *)
Definition isfloatspace_char (c : ascii) : bool :=
  char_in 9 13 c || char_in 32 32 c || char_in 133 133 c || char_in 160 160 c.

Fixpoint all_chars (p : ascii -> bool) (s : string) : bool :=
  match s with
  | EmptyString => true
  | String c rest => p c && all_chars p rest
  end.

(** [s.isdigit()]: at least one character, all of them digits. *)
Definition isdigit (s : string) : bool :=
  match s with
  | EmptyString => false
  | String _ _ => all_chars isdigit_char s
  end.

(** [s[1:]] *)
Definition tail (s : string) : string :=
  match s with
  | EmptyString => EmptyString
  | String _ rest => rest
  end.

Fixpoint filter_chars (p : ascii -> bool) (s : string) : string :=
  match s with
  | EmptyString => EmptyString
  | String c rest =>
      if p c then String c (filter_chars p rest) else filter_chars p rest
  end.

Fixpoint lstrip (s : string) : string :=
  match s with
  | EmptyString => EmptyString
  | String c rest => if isspace_char c then lstrip rest else s
  end.

Fixpoint rstrip (s : string) : string :=
  match s with
  | EmptyString => EmptyString
  | String c rest =>
      match rstrip rest with
      | EmptyString => if isspace_char c then EmptyString else String c EmptyString
      | r => String c r
      end
  end.

(** [s.strip()] *)
Definition strip (s : string) : string := rstrip (lstrip s).

(** The same at each end for another set of blanks. *)
Fixpoint lstrip_by (blank : ascii -> bool) (s : string) : string :=
  match s with
  | EmptyString => EmptyString
  | String c rest => if blank c then lstrip_by blank rest else s
  end.

Fixpoint rstrip_by (blank : ascii -> bool) (s : string) : string :=
  match s with
  | EmptyString => EmptyString
  | String c rest =>
      match rstrip_by blank rest with
      | EmptyString => if blank c then EmptyString else String c EmptyString
      | r => String c r
      end
  end.

Definition strip_by (blank : ascii -> bool) (s : string) : string :=
  rstrip_by blank (lstrip_by blank s).

(** [s.replace(old, new)] for a non-empty [old]: occurrences are found
    from the left and do not overlap; [skip] counts the characters of
    an occurrence still to be dropped. *)
Fixpoint replace_from (old new : string) (skip : nat) (s : string) : string :=
  match s with
  | EmptyString => EmptyString
  | String c rest =>
      match skip with
      | S k => replace_from old new k rest
      | O =>
          if startswith old s
          then String.append new (replace_from old new (String.length old - 1) rest)
          else String c (replace_from old new 0 rest)
      end
  end.

Definition replace (old new s : string) : string := replace_from old new 0 s.

(** [", ".join(parts)] *)
Fixpoint join (sep : string) (parts : list string) : string :=
  match parts with
  | [] => EmptyString
  | [p] => p
  | p :: rest => String.append p (String.append sep (join sep rest))
  end.

Definition lower_char (c : ascii) : ascii :=
  if char_in 65 90 c then ascii_of_nat (nat_of_ascii c + 32) else c.

Fixpoint lower (s : string) : string :=
  match s with
  | EmptyString => EmptyString
  | String c rest => String (lower_char c) (lower rest)
  end.

(** *** The grammar [float(s)] accepts

    [floatvalue ::= [sign] (floatnumber | "inf" | "infinity" | "nan")],
    [floatnumber ::= ([digitpart] "." digitpart | digitpart ["."]) [exponent]],
    [digitpart ::= digit (["_"] digit)*] with the decimal digits 0 to
    9, letters in any case, the blanks of [isfloatspace_char] removed
    at both ends.  [float_ok s] is [true] exactly when [float(s)] does
    not raise [ValueError]. *)

(** After a digit: the rest of a digitpart. *)
Fixpoint skip_digits (s : string) : string :=
  match s with
  | String c rest =>
      if isdecimal_char c then skip_digits rest
      else if Ascii.eqb c "_" then
        match rest with
        | String d rest' => if isdecimal_char d then skip_digits rest' else s
        | EmptyString => s
        end
      else s
  | EmptyString => s
  end.

Definition digitpart (s : string) : option string :=
  match s with
  | String c rest => if isdecimal_char c then Some (skip_digits rest) else None
  | EmptyString => None
  end.

Definition drop_sign (s : string) : string :=
  match s with
  | String c rest => if Ascii.eqb c "+" || Ascii.eqb c "-" then rest else s
  | EmptyString => s
  end.

(** What may follow the mantissa: nothing, or an exponent and nothing. *)
Definition exponent_then_end (s : string) : bool :=
  match s with
  | EmptyString => true
  | String c rest =>
      if Ascii.eqb c "e" || Ascii.eqb c "E" then
        match digitpart (drop_sign rest) with
        | Some EmptyString => true
        | _ => false
        end
      else false
  end.

Definition floatnumber (s : string) : bool :=
  match digitpart s with
  | Some rest =>
      match rest with
      | String c rest' =>
          if Ascii.eqb c "." then
            match digitpart rest' with
            | Some rest'' => exponent_then_end rest''
            | None => exponent_then_end rest'
            end
          else exponent_then_end rest
      | EmptyString => true
      end
  | None =>
      match s with
      | String c rest' =>
          if Ascii.eqb c "." then
            match digitpart rest' with
            | Some rest'' => exponent_then_end rest''
            | None => false
            end
          else false
      | EmptyString => false
      end
  end.

Definition float_ok (s : string) : bool :=
  let body := drop_sign (strip_by isfloatspace_char s) in
  let word := lower body in
  String.eqb word "inf" || String.eqb word "infinity" || String.eqb word "nan"
  || floatnumber body.

End PyStr.

(** ** agent.py *)

Module Agent.

Import PyStr.

Record BaseMessage : Type := { msg_type : string; content : string }.

(** One entry of [ai_message.tool_calls]. *)
Record ToolCall : Type := { name : string; args : string; id : string }.

(** The exceptions the modelled code can raise. *)
Inductive exn : Type :=
| KeyError (key : string)
| RoutingError (label : string).

Inductive res (A : Type) : Type :=
| Ok (a : A)
| Raise (e : exn).
Arguments Ok {A} a.
Arguments Raise {A} e.

Definition bind {A B : Type} (m : res A) (k : A -> res B) : res B :=
  match m with
  | Ok a => k a
  | Raise e => Raise e
  end.

Notation "x <- m ;; k" := (bind m (fun x => k))
  (at level 61, m at next level, right associativity).

(** [AgentState]: the run state.  [question] is written by no node
    and read by subscript in every node but the executor, so here it
    is the caller's required input; every other key can be absent
    from the dict.  A dict that lacks [question] is a
    [Further.StateDict]. *)
Record AgentState : Type := {
  question : string;
  chat_history : option (list BaseMessage);
  query : option string;
  result : option string;
  answer : option string;
  retries : option Z;
  intent : option string
}.

(** [state[key]] *)
Definition getitem {A : Type} (key : string) (field : option A) : res A :=
  match field with
  | Some v => Ok v
  | None => Raise (KeyError key)
  end.

(** [state.get(key, default)] *)
Definition get {A : Type} (field : option A) (default : A) : A :=
  match field with
  | Some v => v
  | None => default
  end.

(** The dict a node returns: the keys it writes. *)
Record Update : Type := {
  u_query : option string;
  u_result : option string;
  u_answer : option string;
  u_retries : option Z;
  u_intent : option string
}.

Definition no_update : Update :=
  {| u_query := None; u_result := None; u_answer := None;
     u_retries := None; u_intent := None |}.

Definition overwrite {A : Type} (old new : option A) : option A :=
  match new with
  | Some v => Some v
  | None => old
  end.

(** The graph merges a node's dict into the state, key by key. *)
Definition apply_update (state : AgentState) (u : Update) : AgentState :=
  {| question := question state;
     chat_history := chat_history state;
     query := overwrite (query state) (u_query u);
     result := overwrite (result state) (u_result u);
     answer := overwrite (answer state) (u_answer u);
     retries := overwrite (retries state) (u_retries u);
     intent := overwrite (intent state) (u_intent u) |}.

(** The services behind the nodes.  The first argument of each is the
    number of nodes already run. *)
Record World : Type := {
  (** [(prompt | llm_with_tools).invoke(...).tool_calls] *)
  classify_llm : nat -> string -> list BaseMessage -> list ToolCall;
  (** [agent_excutor.invoke(...)['output']] *)
  agent_executor : nat -> string -> list BaseMessage -> string;
  (** [db.get_table_info()] *)
  get_table_info : nat -> string;
  (** [(prompt | llm).invoke(...).content] of the generator; the flag
      says whether the repair paragraph is in the system prompt. *)
  generate_llm :
    nat -> bool -> string -> list BaseMessage -> string -> string -> string;
  (** [execute_query_tool.invoke(query)] *)
  execute_query_tool : nat -> string -> string;
  (** [(summarizer_prompt | llm).invoke(...).content] *)
  summarize_llm : nat -> string -> string -> string -> string;
  (** [(error_prompt | llm).invoke(...).content] *)
  explain_llm : nat -> string -> string -> string -> string
}.

Section Nodes.

Variable W : World.
Variable tick : nat.

Definition classify_intent_node (state : AgentState) : res Update :=
  let tool_calls :=
    classify_llm W tick (question state) (get (chat_history state) []) in
  let intent :=
    match tool_calls with
    | [] => "Conversation"
    | first :: _ => name first
    end in
  Ok {| u_query := None; u_result := None; u_answer := None;
        u_retries := None; u_intent := Some intent |}.

Definition handle_conversation_node (state : AgentState) : res Update :=
  let output :=
    agent_executor W tick (question state) (get (chat_history state) []) in
  Ok {| u_query := None; u_result := None; u_answer := Some output;
        u_retries := None; u_intent := None |}.

Definition generate_query_node (state : AgentState) : res Update :=
  let repair := contains "Error:" (get (result state) "") in
  let raw_query :=
    generate_llm W tick repair (question state) (get (chat_history state) [])
      (get_table_info W tick) (get (result state) "") in
  let sql_query :=
    strip (replace "```" "" (replace "```sql" "" (strip raw_query))) in
  let retries := get (retries state) 0%Z in
  Ok {| u_query := Some sql_query; u_result := None; u_answer := None;
        u_retries := Some (retries + 1)%Z; u_intent := None |}.

Definition execute_query_node (state : AgentState) : res Update :=
  query <- getitem "query" (query state) ;;
  let result := execute_query_tool W tick query in
  Ok {| u_query := None; u_result := Some result; u_answer := None;
        u_retries := None; u_intent := None |}.

Definition handle_error_node (state : AgentState) : res Update :=
  let question := question state in
  let error := get (result state) "Unknown error" in
  query <- getitem "query" (query state) ;;
  let answer := explain_llm W tick question query error in
  Ok {| u_query := None; u_result := None; u_answer := Some answer;
        u_retries := None; u_intent := None |}.

Definition summarize_result_node (state : AgentState) : res Update :=
  let question := question state in
  result <- getitem "result" (result state) ;;
  query <- getitem "query" (query state) ;;
  let answer := summarize_llm W tick question query result in
  Ok {| u_query := None; u_result := None; u_answer := Some answer;
        u_retries := None; u_intent := None |}.

End Nodes.

Definition decide_intent_path (state : AgentState) : res string :=
  intent <- getitem "intent" (intent state) ;;
  if String.eqb intent "DatabaseQuery"
  then Ok "generate_query"
  else Ok "handle_conversation".

Definition decide_result_status (state : AgentState) : res string :=
  result <- getitem "result" (result state) ;;
  if contains "Error:" result then
    retries <- getitem "retries" (retries state) ;;
    if (retries >? 7)%Z then Ok "handle_error" else Ok "generate_query"
  else Ok "summarize_result".

(** *** The compiled graph *)

Inductive node : Type :=
| classify_intent
| handle_conversation
| generate_query
| execute_query
| summarize_result
| handle_error
| END.

Definition node_eqb (a b : node) : bool :=
  match a, b with
  | classify_intent, classify_intent
  | handle_conversation, handle_conversation
  | generate_query, generate_query
  | execute_query, execute_query
  | summarize_result, summarize_result
  | handle_error, handle_error
  | END, END => true
  | _, _ => false
  end.

Inductive edge : Type :=
| Direct (target : node)
| Conditional (path : AgentState -> res string) (path_map : list (string * node)).

Definition entry_point : node := classify_intent.

Definition edges (n : node) : edge :=
  match n with
  | classify_intent =>
      Conditional decide_intent_path
        [("generate_query", generate_query);
         ("handle_conversation", handle_conversation)]
  | generate_query => Direct execute_query
  | execute_query =>
      Conditional decide_result_status
        [("generate_query", generate_query);
         ("summarize_result", summarize_result);
         ("handle_error", handle_error)]
  | handle_conversation => Direct END
  | handle_error => Direct END
  | summarize_result => Direct END
  | END => Direct END
  end.

Fixpoint path_lookup (label : string) (path_map : list (string * node)) : res node :=
  match path_map with
  | [] => Raise (RoutingError label)
  | (l, n) :: rest => if String.eqb l label then Ok n else path_lookup label rest
  end.

Definition next_node (n : node) (state : AgentState) : res node :=
  match edges n with
  | Direct target => Ok target
  | Conditional path path_map =>
      label <- path state ;; path_lookup label path_map
  end.

Definition run_node (W : World) (tick : nat) (n : node) : AgentState -> res Update :=
  match n with
  | classify_intent => classify_intent_node W tick
  | handle_conversation => handle_conversation_node W tick
  | generate_query => generate_query_node W tick
  | execute_query => execute_query_node W tick
  | summarize_result => summarize_result_node W tick
  | handle_error => handle_error_node W tick
  | END => fun _ => Ok no_update
  end.

(** What a run leaves behind: the nodes in the order they ran, each
    with the dict it returned. *)
Definition event : Type := (node * Update)%type.

Inductive outcome : Type :=
| Done (trace : list event) (final : AgentState)
| Raised (e : exn)
| OutOfFuel.

(** One node runs to completion, its dict is merged, the outgoing edge
    is evaluated on the merged state, and the next node is scheduled.
    [fuel] bounds the number of nodes run. *)
Fixpoint run_from (W : World) (fuel tick : nat) (n : node) (state : AgentState)
  : outcome :=
  match n with
  | END => Done [] state
  | _ =>
      match fuel with
      | O => OutOfFuel
      | S fuel' =>
          match run_node W tick n state with
          | Raise e => Raised e
          | Ok u =>
              let state' := apply_update state u in
              match next_node n state' with
              | Raise e => Raised e
              | Ok n' =>
                  match run_from W fuel' (S tick) n' state' with
                  | Done trace final => Done ((n, u) :: trace) final
                  | other => other
                  end
              end
          end
      end
  end.

(** [graph.invoke(initial_state)] *)
Definition graph_invoke (W : World) (fuel : nat) (initial_state : AgentState)
  : outcome :=
  run_from W fuel 0 entry_point initial_state.

(** [initial_state = {"question": ..., "chat_history": ...}] *)
Definition initial_state (question : string) (history : list BaseMessage)
  : AgentState :=
  {| question := question; chat_history := Some history; query := None;
     result := None; answer := None; retries := None; intent := None |}.

End Agent.

(** ** script.py *)

Module Script.

Import PyStr.

(** A cell of the fetched JSON.  [VOther] is any value that is neither
    null, a boolean, an integer nor a string (a float, a list, an
    object), carried with the text [str()] gives for it. *)
Inductive value : Type :=
| VNone
| VBool (b : bool)
| VInt (z : Z)
| VStr (s : string)
| VOther (repr : string).

(** [str(v)] *)
Definition py_str (v : value) : string :=
  match v with
  | VNone => "None"
  | VBool true => "True"
  | VBool false => "False"
  | VInt z => NilZero.string_of_int (Z.to_int z)
  | VStr s => s
  | VOther repr => repr
  end.

(** A dict with text keys, in insertion order. *)
Definition dict (V : Type) : Type := list (string * V).

Definition keys {V : Type} (d : dict V) : list string := map fst d.

Fixpoint lookup {V : Type} (d : dict V) (key : string) : option V :=
  match d with
  | [] => None
  | (k, v) :: rest => if String.eqb k key then Some v else lookup rest key
  end.

(** [d.get(key, default)] *)
Definition dict_get {V : Type} (d : dict V) (key : string) (default : V) : V :=
  match lookup d key with
  | Some v => v
  | None => default
  end.

(** [d[key] = v]: a present key keeps its place, a new one goes last. *)
Fixpoint dict_set {V : Type} (d : dict V) (key : string) (v : V) : dict V :=
  match d with
  | [] => [(key, v)]
  | (k, old) :: rest =>
      if String.eqb k key then (k, v) :: rest else (k, old) :: dict_set rest key v
  end.

Definition row : Type := dict value.

(** The truth value of a key: [if col]. *)
Definition truthy (col : string) : bool := negb (String.eqb col "").

(** The test of line 39. *)
Definition integer_pattern (value : string) : bool :=
  isdigit value || (startswith "-" value && isdigit (tail value)).

(** The inner loop of [infer_column_types] over the rows still to be
    read, with the two flags as they stand. *)
Fixpoint scan_column (col : string) (rows : list row) (is_integer is_real : bool)
  : bool * bool :=
  match rows with
  | [] => (is_integer, is_real)
  | row :: rest =>
      let value := py_str (dict_get row col (VStr "")) in
      if String.eqb value "" then scan_column col rest is_integer is_real
      else
        let is_integer :=
          if is_integer && negb (integer_pattern value) then false else is_integer in
        let is_real :=
          if is_real && negb is_integer
          then (if float_ok value then is_real else false)
          else is_real in
        if negb is_integer && negb is_real then (is_integer, is_real)
        else scan_column col rest is_integer is_real
  end.

Definition column_type (col : string) (rows : list row) : string :=
  let '(is_integer, is_real) := scan_column col rows true true in
  if is_integer then "INTEGER"
  else if is_real then "REAL"
  else "TEXT".

Definition infer_column_types (rows : list row) : dict string :=
  match rows with
  | [] => []
  | first :: _ =>
      let columns := filter truthy (keys first) in
      fold_left
        (fun column_types col => dict_set column_types col (column_type col rows))
        columns []
  end.

(** What [write_to_sqlite] asks of the connection, in order, as long as
    no call raises; [Further.perform] cuts the list at the first call
    that does. *)
Inductive db_op : Type :=
| Connect (db_name : string)
| Execute (sql : string)
| ExecuteMany (sql : string) (parameters : list (list value))
| Commit
| Close.

Definition dquote : string := String (ascii_of_nat 34) EmptyString.

(** ["..."] around an identifier. *)
Definition quoted (c : string) : string :=
  String.append dquote (String.append c dquote).

Definition concat_all (parts : list string) : string :=
  fold_right String.append EmptyString parts.

(** Lines 89 and 27: the keys of the first row that are not empty. *)
Definition table_columns (rows : list row) : list string :=
  match rows with
  | [] => []
  | first :: _ => filter truthy (keys first)
  end.

Definition sanitize (table_name : string) : string :=
  filter_chars isalnum_char table_name.

Definition create_table_sql (sanitized_table_name : string)
  (column_types : dict string) : string :=
  let column_definitions :=
    join ", "
      (map (fun item => concat_all [quoted (fst item); " "; snd item]) column_types) in
  concat_all ["CREATE TABLE "; sanitized_table_name; " ("; column_definitions; ")"].

Definition insert_sql (sanitized_table_name : string) (columns : list string)
  : string :=
  let placeholders := join ", " (map (fun _ => "?") columns) in
  let quoted_columns := join ", " (map quoted columns) in
  concat_all ["INSERT INTO "; sanitized_table_name; " ("; quoted_columns;
              ") VALUES ("; placeholders; ")"].

Definition values_to_insert (columns : list string) (rows : list row)
  : list (list value) :=
  map (fun row => map (fun col => dict_get row col VNone) columns) rows.

(** The body of the loop over [data.items()] for one sheet. *)
Definition write_table (table_name : string) (rows : list row) : list db_op :=
  match rows with
  | [] => []
  | _ :: _ =>
      let columns := table_columns rows in
      match columns with
      | [] => []
      | _ :: _ =>
          let sanitized_table_name := sanitize table_name in
          let column_types := infer_column_types rows in
          [ Execute (String.append "DROP TABLE IF EXISTS " sanitized_table_name);
            Execute (create_table_sql sanitized_table_name column_types);
            ExecuteMany (insert_sql sanitized_table_name columns)
                        (values_to_insert columns rows) ]
      end
  end.

Definition write_to_sqlite (data : dict (list row)) (db_name : string)
  : list db_op :=
  match data with
  | [] => []
  | _ :: _ =>
      Connect db_name
        :: flat_map (fun item => write_table (fst item) (snd item)) data
        ++ [Commit; Close]
  end.

(** *** The rule for a column as the interface description words it

    Integer if every non-empty value matches the integer pattern,
    else real if every non-empty value parses as a float, else text. *)
Definition present (values : list string) : list string :=
  filter (fun v => negb (String.eqb v "")) values.

Definition worded_type (values : list string) : string :=
  if forallb integer_pattern (present values) then "INTEGER"
  else if forallb float_ok (present values) then "REAL"
  else "TEXT".

(** The texts the loop reads for a column, one per row. *)
Definition sampled (col : string) (rows : list row) : list string :=
  map (fun row => py_str (dict_get row col (VStr ""))) rows.

(** A column given by the texts of its cells. *)
Definition column_rows (col : string) (values : list string) : list row :=
  map (fun v => [(col, VStr v)]) values.

End Script.

(** ** Runs of the graph: what the statements below speak of *)

Module Runs.

Import PyStr Agent.

(** [state.get("retries", 0)] *)
Definition get_retries (state : AgentState) : Z := get (retries state) 0%Z.

(** The state after the dicts of a trace have been merged, in order. *)
Definition replay (state : AgentState) (trace : list event) : AgentState :=
  fold_left apply_update (map snd trace) state.

Definition count_node (n : node) (trace : list event) : nat :=
  List.length (filter (fun e => node_eqb n (fst e)) trace).

(** The three nodes with an edge to [END]. *)
Definition terminal (n : node) : bool :=
  match n with
  | handle_conversation | summarize_result | handle_error => true
  | _ => false
  end.

Definition upd_intent (i : string) : Update :=
  {| u_query := None; u_result := None; u_answer := None;
     u_retries := None; u_intent := Some i |}.

Definition upd_generate (q : string) (r : Z) : Update :=
  {| u_query := Some q; u_result := None; u_answer := None;
     u_retries := Some r; u_intent := None |}.

Definition upd_result (x : string) : Update :=
  {| u_query := None; u_result := Some x; u_answer := None;
     u_retries := None; u_intent := None |}.

Definition upd_answer (a : string) : Update :=
  {| u_query := None; u_result := None; u_answer := Some a;
     u_retries := None; u_intent := None |}.

(** The traces of the database path entered with [retries] read as
    [r]: generate and execute alternate, and the run leaves through
    the summarizer or, once [retries] is above 7, through the failure
    explainer. *)
Inductive db_path : Z -> list event -> Prop :=
| db_summarize (r : Z) (q x a : string) :
    contains "Error:" x = false ->
    db_path r [(generate_query, upd_generate q (r + 1));
               (execute_query, upd_result x);
               (summarize_result, upd_answer a)]
| db_give_up (r : Z) (q x a : string) :
    contains "Error:" x = true ->
    (7 < r + 1)%Z ->
    db_path r [(generate_query, upd_generate q (r + 1));
               (execute_query, upd_result x);
               (handle_error, upd_answer a)]
| db_repair (r : Z) (q x : string) (rest : list event) :
    contains "Error:" x = true ->
    (r + 1 <= 7)%Z ->
    db_path (r + 1) rest ->
    db_path r ((generate_query, upd_generate q (r + 1))
               :: (execute_query, upd_result x) :: rest).

(** The traces of the whole graph from a state. *)
Inductive graph_path (state : AgentState) : list event -> Prop :=
| gp_conversation (i a : string) :
    i <> "DatabaseQuery" ->
    graph_path state [(classify_intent, upd_intent i);
                      (handle_conversation, upd_answer a)]
| gp_database (rest : list event) :
    db_path (get_retries state) rest ->
    graph_path state ((classify_intent, upd_intent "DatabaseQuery") :: rest).

(** Nodes that are enough for every run from [state]. *)
Definition enough_fuel (state : AgentState) : nat :=
  2 * Z.to_nat (7 - get_retries state) + 4.

(** The trace ends with the one event that writes [answer], and that
    event is the only one at a terminal node. *)
Definition answered_once (trace : list event) (final : AgentState) : Prop :=
  exists (before : list event) (n : node) (a : string),
    trace = before ++ [(n, upd_answer a)]
    /\ terminal n = true
    /\ Forall (fun e => u_answer (snd e) = None /\ terminal (fst e) = false) before
    /\ answer final = Some a.

End Runs.

Import PyStr Agent Script Runs.

(** ** Concrete states, services and sheets *)

Module Samples.

Import PyStr Agent Script Runs.

(** After one execution whose rows hold the text of the marker. *)
Definition marker_inside : AgentState :=
  {| question := "Which notes were logged?";
     chat_history := Some [];
     query := Some "SELECT note FROM log";
     result := Some "[('Error: disk full',)]";
     answer := None;
     retries := Some 1%Z;
     intent := Some "DatabaseQuery" |}.

(** After an execution that returned rows, with a counter above 7. *)
Definition rows_returned : AgentState :=
  {| question := "How many tasks?";
     chat_history := Some [];
     query := Some "SELECT COUNT(*) FROM tasks";
     result := Some "[(3,)]";
     answer := None;
     retries := Some 9%Z;
     intent := Some "DatabaseQuery" |}.

(** After a failed execution of the third candidate. *)
Definition third_failure : AgentState :=
  {| question := "How many tasks?";
     chat_history := Some [];
     query := Some "SELECT COUNT(*) FROM task";
     result := Some "Error: (sqlite3.OperationalError) no such table: task";
     answer := None;
     retries := Some 3%Z;
     intent := Some "DatabaseQuery" |}.

Definition classified_conversation : AgentState :=
  {| question := "Aaj kya date?";
     chat_history := Some [];
     query := None; result := None; answer := None; retries := None;
     intent := Some "Conversation" |}.

(** A model that always picks the database tool and a store that
    refuses every query. *)
Definition always_failing : World :=
  {| classify_llm := fun _ _ _ => [{| name := "DatabaseQuery"; args := "{}"; id := "call_0" |}];
     agent_executor := fun _ _ _ => "Hello";
     get_table_info := fun _ => "CREATE TABLE tasks (Status TEXT)";
     generate_llm := fun _ _ _ _ _ _ => "```sql SELECT * FROM task```";
     execute_query_tool := fun _ _ => "Error: no such table: task";
     summarize_llm := fun _ _ _ _ => "There are 3 tasks.";
     explain_llm := fun _ _ _ _ => "Please name an existing table." |}.

(** A store that answers every query, with rows that hold the text
    of the marker. *)
Definition rows_with_marker : World :=
  {| classify_llm := fun _ _ _ => [{| name := "DatabaseQuery"; args := "{}"; id := "call_0" |}];
     agent_executor := fun _ _ _ => "Hello";
     get_table_info := fun _ => "CREATE TABLE log (note TEXT)";
     generate_llm := fun _ _ _ _ _ _ => "SELECT note FROM log";
     execute_query_tool := fun _ _ => "[('Error: disk full',)]";
     summarize_llm := fun _ _ _ _ => "One note: disk full.";
     explain_llm := fun _ _ _ _ => "Please rephrase." |}.

(** A model that selects no tool. *)
Definition no_selection : World :=
  {| classify_llm := fun _ _ _ => [];
     agent_executor := fun _ _ _ => "It is Tuesday.";
     get_table_info := fun _ => "";
     generate_llm := fun _ _ _ _ _ _ => "SELECT 1";
     execute_query_tool := fun _ _ => "[(1,)]";
     summarize_llm := fun _ _ _ _ => "One.";
     explain_llm := fun _ _ _ _ => "Sorry." |}.

(** A sheet whose second row lacks [b] and brings a key of its own. *)
Definition ragged_sheet : list row :=
  [ [("a", VStr "1"); ("", VStr "x"); ("b", VStr "2.5")];
    [("a", VInt 3); ("z", VStr "late")] ].

End Samples.

Import Samples.

(** ** Further notions for runs and sheets *)

Module Further.

Import PyStr Agent Script Runs.

(** What the classifier, the first node of a run, writes to [intent]. *)
Definition chosen_intent (W : World) (state : AgentState) : string :=
  match classify_llm W 0 (question state) (get (chat_history state) []) with
  | [] => "Conversation"
  | first :: _ => name first
  end.

(** A sheet that gets a table: it has a first row with a non-empty key. *)
Definition has_header (rows : list row) : bool :=
  match table_columns rows with
  | [] => false
  | _ :: _ => true
  end.

(** A model that picks the database tool, fences its query, and a store
    that answers it. *)
Definition first_try : World :=
  {| classify_llm := fun _ _ _ => [{| name := "DatabaseQuery"; args := "{}"; id := "call_0" |}];
     agent_executor := fun _ _ _ => "Hello";
     get_table_info := fun _ => "CREATE TABLE tasks (Status TEXT)";
     generate_llm := fun _ _ _ _ _ _ => "```sql
SELECT COUNT(*) FROM tasks
```";
     execute_query_tool := fun _ _ => "[(3,)]";
     summarize_llm := fun _ _ _ _ => "There are 3 tasks.";
     explain_llm := fun _ _ _ _ => "Please rephrase." |}.

(** The final state of an earlier run, handed in again as a start. *)
Definition spent_state : AgentState :=
  {| question := "And how many are done?";
     chat_history := Some [];
     query := Some "SELECT * FROM task";
     result := Some "Error: no such table: task";
     answer := Some "Please name an existing table.";
     retries := Some 8%Z;
     intent := Some "DatabaseQuery" |}.

(** Text of code points below 128. *)
Definition is_ascii (s : string) : bool :=
  all_chars (fun c => (nat_of_ascii c <? 128)%nat) s.

(** The texts from the first one that fails the integer test on. *)
Fixpoint from_first_non_integer (values : list string) : list string :=
  match values with
  | [] => []
  | v :: rest => if integer_pattern v then from_first_non_integer rest else values
  end.

(** The rule for a column as the loop applies it: the float test is
    made from the first text that fails the integer test on, and not
    on the texts before it. *)
Definition scanned_type (values : list string) : string :=
  if forallb integer_pattern (present values) then "INTEGER"
  else if forallb float_ok (from_first_non_integer (present values)) then "REAL"
  else "TEXT".

(** The superscript two and the letter e with an acute accent. *)
Definition superscript_two : string := String (ascii_of_nat 178) EmptyString.

Definition e_acute : string := String (ascii_of_nat 233) EmptyString.

(** *** A state dict that may lack [question]

    [given] holds the keys of the dict; [has_question] says whether
    "question" is among them, and when it is not, [question given]
    stands for nothing. *)
Record StateDict : Type := { has_question : bool; given : AgentState }.

(** The nodes that read [state['question']]: all but the executor.
    In each of them it is the first key read by subscript (lines 62,
    99, 146, 184 and 212). *)
Definition reads_question (n : node) : bool :=
  match n with
  | execute_query | END => false
  | _ => true
  end.

Definition run_node_dict (W : World) (tick : nat) (n : node) (d : StateDict)
  : res Update :=
  if reads_question n && negb (has_question d)
  then Raise (KeyError "question")
  else run_node W tick n (given d).




(** *** The engine behind the cursor

    [write_to_sqlite] catches nothing: the calls are made in order, and
    the first that raises ends it, with no later call.  [raises] says,
    from the calls made so far, whether the next one raises.  The
    result is the calls made and, if one raised, which. *)
Fixpoint perform (raises : list db_op -> db_op -> bool) (made todo : list db_op)
  : list db_op * option db_op :=
  match todo with
  | [] => (made, None)
  | op :: rest =>
      if raises made op then (made ++ [op], Some op)
      else perform raises (made ++ [op]) rest
  end.

Definition write_to_sqlite_on (raises : list db_op -> db_op -> bool)
  (data : dict (list row)) (db_name : string) : list db_op * option db_op :=
  perform raises [] (write_to_sqlite data db_name).

(** An engine that refuses a statement with no table name after
    DROP TABLE IF EXISTS, and accepts every other call. *)
Definition refuses_empty_name (_ : list db_op) (op : db_op) : bool :=
  match op with
  | Execute sql => String.eqb sql "DROP TABLE IF EXISTS "
  | _ => false
  end.

End Further.

Import Further.

(** * Properties of agent.py *)

Section RouterFacts.

Lemma startswith_contains (p s : string) :
  startswith p s = true -> contains p s = true.
Proof.
  intros H. destruct s; cbn [contains]; rewrite H; reflexivity.
Qed.

Lemma route_success (s : AgentState) (x : string) :
  result s = Some x -> contains "Error:" x = false ->
  decide_result_status s = Ok "summarize_result"
  /\ next_node execute_query s = Ok summarize_result.
Proof.
  intros Hr Hc. unfold next_node, edges, decide_result_status.
  rewrite Hr. cbn [getitem bind]. rewrite Hc. split; reflexivity.
Qed.

Lemma route_failure (s : AgentState) (x : string) (n : Z) :
  result s = Some x -> contains "Error:" x = true -> retries s = Some n ->
  decide_result_status s
    = Ok (if (n >? 7)%Z then "handle_error" else "generate_query")
  /\ next_node execute_query s
    = Ok (if (n >? 7)%Z then handle_error else generate_query).
Proof.
  intros Hr Hc Hn. unfold next_node, edges, decide_result_status.
  rewrite Hr. cbn [getitem bind]. rewrite Hc, Hn. cbn [getitem bind].
  destruct (n >? 7)%Z; split; reflexivity.
Qed.

End RouterFacts.

Section RunFacts.

Variable W : World.

Lemma run_from_END (fuel tick : nat) (s : AgentState) :
  run_from W fuel tick END s = Done [] s.
Proof. destruct fuel; reflexivity. Qed.

(** One scheduled node: its dict is merged and the edge is followed. *)
Lemma run_step (fuel tick : nat) (n n' : node) (s : AgentState) (u : Update) :
  n <> END -> run_node W tick n s = Ok u ->
  next_node n (apply_update s u) = Ok n' ->
  run_from W (S fuel) tick n s
  = match run_from W fuel (S tick) n' (apply_update s u) with
    | Done trace final => Done ((n, u) :: trace) final
    | other => other
    end.
Proof.
  intros Hn Hu Hnext. destruct n; try congruence;
    cbn [run_from]; rewrite Hu, Hnext; reflexivity.
Qed.

(** A terminal node that returns [u] ends the run. *)
Lemma run_terminal (fuel tick : nat) (n : node) (s : AgentState) (u : Update) :
  terminal n = true -> run_node W tick n s = Ok u ->
  run_from W (S fuel) tick n s = Done [(n, u)] (apply_update s u).
Proof.
  intros Ht Hu.
  rewrite (run_step fuel tick n END s u); [now rewrite run_from_END | | exact Hu |].
  - intros ->; discriminate Ht.
  - destruct n; try discriminate Ht; reflexivity.
Qed.

Lemma generate_update (tick : nat) (s : AgentState) :
  exists q, run_node W tick generate_query s
            = Ok (upd_generate q (get_retries s + 1)).
Proof. eexists. reflexivity. Qed.

(** The repair loop: generate, execute, route, with fuel for every
    retry the bound leaves. *)
Lemma run_db_loop (k : nat) :
  forall (fuel tick : nat) (s : AgentState),
    (7 - get_retries s <= Z.of_nat k)%Z -> (2 * k + 3 <= fuel)%nat ->
    exists tr sf,
      run_from W fuel tick generate_query s = Done tr sf
      /\ db_path (get_retries s) tr.
Proof.
  induction k as [|k IH]; intros fuel tick s Hk Hfuel.
  all: destruct fuel as [|[|[|fuel]]]; try lia.
  all: destruct (generate_update tick s) as [q Hq].
  all: rewrite (run_step _ tick generate_query execute_query s _ ltac:(discriminate) Hq eq_refl).
  all: set (s1 := apply_update s (upd_generate q (get_retries s + 1))).
  all: set (x := execute_query_tool W (S tick) q).
  all: assert (Hexec : run_node W (S tick) execute_query s1 = Ok (upd_result x))
         by reflexivity.
  all: set (s2 := apply_update s1 (upd_result x)).
  all: assert (Hr2 : get_retries s2 = (get_retries s + 1)%Z) by reflexivity.
  all: assert (Hsum : run_node W (S (S tick)) summarize_result s2
                      = Ok (upd_answer (summarize_llm W (S (S tick)) (question s2) q x)))
         by reflexivity.
  all: assert (Herr : run_node W (S (S tick)) handle_error s2
                      = Ok (upd_answer (explain_llm W (S (S tick)) (question s2) q x)))
         by reflexivity.
  all: destruct (contains "Error:" x) eqn:Hx.
  all: try (destruct (route_success s2 x eq_refl Hx) as [_ Hn];
            rewrite (run_step _ _ execute_query summarize_result s1 _
                       ltac:(discriminate) Hexec Hn);
            fold s2; rewrite (run_terminal fuel _ summarize_result s2 _ eq_refl Hsum);
            do 2 eexists; split; [reflexivity | apply db_summarize; exact Hx]).
  all: destruct (route_failure s2 x (get_retries s + 1) eq_refl Hx eq_refl) as [_ Hn].
  all: destruct (get_retries s + 1 >? 7)%Z eqn:Hgt.
  all: try (rewrite (run_step _ _ execute_query handle_error s1 _
                       ltac:(discriminate) Hexec Hn);
            fold s2; rewrite (run_terminal fuel _ handle_error s2 _ eq_refl Herr);
            apply Z.gtb_lt in Hgt;
            do 2 eexists; split; [reflexivity | apply db_give_up; [exact Hx | lia]]).
  all: assert (Hle : (get_retries s + 1 <= 7)%Z)
         by (destruct (Z.gtb_spec (get_retries s + 1) 7); [discriminate | lia]).
  - lia.
  - rewrite (run_step _ _ execute_query generate_query s1 _
               ltac:(discriminate) Hexec Hn).
    fold s2.
    destruct (IH (S fuel) (S (S tick)) s2) as (tr & sf & Hrun & Hpath);
      [rewrite Hr2; lia | lia |].
    rewrite Hrun. do 2 eexists; split; [reflexivity |].
    apply db_repair; [exact Hx | exact Hle |]. rewrite <- Hr2. exact Hpath.
Qed.

(** What a run returns is the replay of its trace. *)
Lemma run_from_replay (fuel : nat) :
  forall (tick : nat) (n : node) (s sf : AgentState) (tr : list event),
    run_from W fuel tick n s = Done tr sf -> sf = replay s tr.
Proof.
  induction fuel as [|fuel IH]; intros tick n s sf tr H.
  - destruct n; try discriminate H; rewrite run_from_END in H;
      injection H as <- <-; reflexivity.
  - destruct n; try (rewrite run_from_END in H; injection H as <- <-; reflexivity).
    all: cbn [run_from] in H.
    all: destruct (run_node W tick _ s) as [u|] eqn:Hu; try discriminate H.
    all: destruct (next_node _ (apply_update s u)) as [n'|]; try discriminate H.
    all: destruct (run_from W fuel (S tick) n' (apply_update s u)) as [tr' sf'| |] eqn:Hrun;
      try discriminate H.
    all: injection H as <- <-; apply IH in Hrun; exact Hrun.
Qed.

(** Only the generator writes [retries], and it writes the old value
    plus one. *)
Lemma node_retries (tick : nat) (n : node) (s : AgentState) (u : Update) :
  run_node W tick n s = Ok u ->
  (n <> generate_query /\ u_retries u = None)
  \/ (n = generate_query /\ u_retries u = Some (get_retries s + 1)%Z).
Proof.
  destruct n; cbn [run_node]; intros H.
  - injection H as <-. left. split; [discriminate | reflexivity].
  - injection H as <-. left. split; [discriminate | reflexivity].
  - injection H as <-. right. split; reflexivity.
  - unfold execute_query_node in H. destruct (query s); [|discriminate H].
    injection H as <-. left. split; [discriminate | reflexivity].
  - unfold summarize_result_node in H.
    destruct (result s); [|discriminate H]. destruct (query s); [|discriminate H].
    injection H as <-. left. split; [discriminate | reflexivity].
  - unfold handle_error_node in H. destruct (query s); [|discriminate H].
    injection H as <-. left. split; [discriminate | reflexivity].
  - injection H as <-. left. split; [discriminate | reflexivity].
Qed.

(** Along a run, [retries] moves only at the generator, by one. *)
Lemma run_from_retries (fuel : nat) :
  forall (tick : nat) (n : node) (s sf : AgentState) (tr : list event),
    run_from W fuel tick n s = Done tr sf ->
    forall pre e post, tr = pre ++ e :: post ->
      (fst e <> generate_query /\
       retries (replay s (pre ++ [e])) = retries (replay s pre))
      \/ (fst e = generate_query /\
          retries (replay s (pre ++ [e]))
          = Some (get_retries (replay s pre) + 1)%Z).
Proof.
  induction fuel as [|fuel IH]; intros tick n s sf tr H pre e post Htr.
  - destruct n; try discriminate H; rewrite run_from_END in H;
      injection H as <- <-; destruct pre; discriminate Htr.
  - destruct n;
      try (rewrite run_from_END in H; injection H as <- <-;
           destruct pre; discriminate Htr).
    all: cbn [run_from] in H.
    all: destruct (run_node W tick _ s) as [u|] eqn:Hu; try discriminate H.
    all: destruct (next_node _ (apply_update s u)) as [n'|]; try discriminate H.
    all: destruct (run_from W fuel (S tick) n' (apply_update s u)) as [tr' sf'| |] eqn:Hrun;
      try discriminate H.
    all: injection H as <- <-.
    all: destruct pre as [|p pre];
      [ injection Htr as <- _;
        destruct (node_retries _ _ _ _ Hu) as [[Hn Hnone]|[Hn Hsome]];
        [ left; split; [exact Hn |];
          cbn; unfold overwrite; rewrite Hnone; reflexivity
        | right; split; [exact Hn |];
          cbn; unfold overwrite; rewrite Hsome; reflexivity ]
      | injection Htr as <- Htr;
        exact (IH _ _ _ _ _ Hrun pre e post Htr) ].
Qed.

(** Every run of the graph, with enough fuel, completes, and its trace
    has one of the two shapes of [graph_path]. *)
Lemma run_graph (fuel : nat) (s : AgentState) :
  (enough_fuel s <= fuel)%nat ->
  exists tr sf,
    graph_invoke W fuel s = Done tr sf
    /\ graph_path s tr
    /\ sf = replay s tr.
Proof.
  unfold enough_fuel. intros Hfuel.
  destruct fuel as [|fuel]; [lia|].
  unfold graph_invoke, entry_point.
  set (tool_calls := classify_llm W 0 (question s) (get (chat_history s) [])).
  set (i := match tool_calls with [] => "Conversation" | first :: _ => name first end).
  assert (Hc : run_node W 0 classify_intent s = Ok (upd_intent i)) by reflexivity.
  set (s1 := apply_update s (upd_intent i)).
  assert (Hnext : next_node classify_intent s1
                  = Ok (if String.eqb i "DatabaseQuery"
                        then generate_query else handle_conversation)).
  { unfold next_node, edges, decide_intent_path.
    replace (intent s1) with (Some i) by reflexivity. cbn [getitem bind].
    destruct (String.eqb i "DatabaseQuery"); reflexivity. }
  rewrite (run_step _ _ classify_intent _ s _ ltac:(discriminate) Hc Hnext).
  fold s1.
  assert (Hsome :
    exists tr sf,
      match run_from W fuel 1
              (if String.eqb i "DatabaseQuery" then generate_query
               else handle_conversation) s1 with
      | Done trace final => Done ((classify_intent, upd_intent i) :: trace) final
      | other => other
      end = Done tr sf /\ graph_path s tr).
  { destruct (String.eqb_spec i "DatabaseQuery") as [Hi|Hi].
    - destruct (run_db_loop (Z.to_nat (7 - get_retries s)) fuel 1 s1)
        as (tr & sf & Hrun & Hpath).
      + replace (get_retries s1) with (get_retries s) by reflexivity. lia.
      + lia.
      + rewrite Hrun. do 2 eexists. split; [reflexivity|].
        rewrite Hi. apply gp_database. exact Hpath.
    - destruct fuel as [|fuel]; [lia|].
      rewrite (run_terminal fuel 1 handle_conversation s1
                 (upd_answer (agent_executor W 1 (question s1)
                                (get (chat_history s1) []))) eq_refl eq_refl).
      do 2 eexists. split; [reflexivity|].
      apply gp_conversation. exact Hi. }
  destruct Hsome as (tr & sf & Hrun & Hpath).
  exists tr, sf. split; [exact Hrun|]. split; [exact Hpath|].
  assert (Hfull : run_from W (S fuel) 0 classify_intent s = Done tr sf).
  { rewrite (run_step _ _ classify_intent _ s _ ltac:(discriminate) Hc Hnext).
    exact Hrun. }
  exact (run_from_replay _ _ _ _ _ _ Hfull).
Qed.

Lemma graph_retries (fuel : nat) (s sf : AgentState) (tr : list event) :
  graph_invoke W fuel s = Done tr sf ->
  forall pre e post, tr = pre ++ e :: post ->
    (fst e <> generate_query /\
     retries (replay s (pre ++ [e])) = retries (replay s pre))
    \/ (fst e = generate_query /\
        retries (replay s (pre ++ [e]))
        = Some (get_retries (replay s pre) + 1)%Z).
Proof. unfold graph_invoke. apply run_from_retries. Qed.

End RunFacts.

(** ** What the shape of a trace gives *)

Section PathFacts.

Lemma count_node_cons (n : node) (e : event) (tr : list event) :
  count_node n (e :: tr)
  = ((if node_eqb n (fst e) then 1 else 0) + count_node n tr)%nat.
Proof. unfold count_node. cbn [filter]. destruct (node_eqb n (fst e)); reflexivity. Qed.

Lemma count_node_app (n : node) (tr1 tr2 : list event) :
  count_node n (tr1 ++ tr2) = (count_node n tr1 + count_node n tr2)%nat.
Proof.
  induction tr1 as [|e tr1 IH]; [reflexivity|].
  cbn [app]. rewrite !count_node_cons, IH. lia.
Qed.

Lemma replay_app (s : AgentState) (tr1 tr2 : list event) :
  replay s (tr1 ++ tr2) = replay (replay s tr1) tr2.
Proof. unfold replay. rewrite map_app, fold_left_app. reflexivity. Qed.

(** The generator runs at most [max 1 (8 - r)] times. *)
Lemma db_count_generate (r : Z) (tr : list event) :
  db_path r tr ->
  (1 <= Z.of_nat (count_node generate_query tr) <= Z.max 1 (8 - r))%Z.
Proof.
  induction 1 as [r q x a _ | r q x a _ _ | r q x rest _ Hle _ IH].
  - cbn. lia.
  - cbn. lia.
  - rewrite !count_node_cons. cbn [fst node_eqb]. lia.
Qed.

(** Every value written to [retries] lies in [(r, max (r+1) 8]]. *)
Lemma db_retries_written (r : Z) (tr : list event) :
  db_path r tr ->
  Forall (fun e => forall v, u_retries (snd e) = Some v ->
                             (r < v <= Z.max (r + 1) 8)%Z) tr.
Proof.
  induction 1 as [r q x a _ | r q x a _ _ | r q x rest _ Hle _ IH].
  1,2: repeat (apply Forall_cons || apply Forall_nil);
       cbn; intros v Hv; try discriminate Hv; injection Hv as <-; lia.
  constructor; [cbn; intros v Hv; injection Hv as <-; lia|].
  constructor; [cbn; intros v Hv; discriminate Hv|].
  eapply Forall_impl; [|exact IH]. cbn. intros e He v Hv.
  specialize (He v Hv). lia.
Qed.

(** The value of [retries] when the database path is left. *)
Lemma db_final_retries (r : Z) (tr : list event) :
  db_path r tr ->
  forall s, (r < get_retries (replay s tr) <= Z.max (r + 1) 8)%Z.
Proof.
  induction 1 as [r q x a _ | r q x a _ _ | r q x rest _ Hle _ IH]; intros s.
  - cbn. lia.
  - cbn. lia.
  - change (replay s ((generate_query, upd_generate q (r + 1))
                        :: (execute_query, upd_result x) :: rest))
      with (replay (apply_update (apply_update s (upd_generate q (r + 1)))
                      (upd_result x)) rest).
    specialize (IH (apply_update (apply_update s (upd_generate q (r + 1)))
                      (upd_result x))). lia.
Qed.

(** The database path ends with the one write of [answer], at the
    summarizer or at the failure explainer. *)
Lemma db_answered (r : Z) (tr : list event) :
  db_path r tr ->
  exists before n a,
    tr = before ++ [(n, upd_answer a)]
    /\ terminal n = true
    /\ Forall (fun e => u_answer (snd e) = None /\ terminal (fst e) = false) before.
Proof.
  induction 1 as [r q x a _ | r q x a _ _ | r q x rest _ Hle _ IH].
  - exists [(generate_query, upd_generate q (r + 1)); (execute_query, upd_result x)],
      summarize_result, a.
    repeat split; repeat (apply Forall_cons || apply Forall_nil); split; reflexivity.
  - exists [(generate_query, upd_generate q (r + 1)); (execute_query, upd_result x)],
      handle_error, a.
    repeat split; repeat (apply Forall_cons || apply Forall_nil); split; reflexivity.
  - destruct IH as (before & n & a & -> & Hn & Hbefore).
    exists ((generate_query, upd_generate q (r + 1))
              :: (execute_query, upd_result x) :: before), n, a.
    split; [reflexivity|]. split; [exact Hn|].
    repeat (constructor; [split; reflexivity|]). exact Hbefore.
Qed.

Lemma graph_answered (s : AgentState) (tr : list event) :
  graph_path s tr -> answered_once tr (replay s tr).
Proof.
  intros [i a Hi | rest Hpath].
  - exists [(classify_intent, upd_intent i)], handle_conversation, a.
    repeat split; repeat (apply Forall_cons || apply Forall_nil); split; reflexivity.
  - destruct (db_answered _ _ Hpath) as (before & n & a & -> & Hn & Hbefore).
    exists ((classify_intent, upd_intent "DatabaseQuery") :: before), n, a.
    split; [reflexivity|]. split; [exact Hn|].
    split; [constructor; [split; reflexivity | exact Hbefore]|].
    rewrite app_comm_cons, replay_app. reflexivity.
Qed.

(** In a trace that ends with its only terminal node, an event at a
    terminal node is the last one. *)
Lemma terminal_is_last (before : list event) (last : event) :
  Forall (fun e => u_answer (snd e) = None /\ terminal (fst e) = false) before ->
  forall pre e post,
    before ++ [last] = pre ++ e :: post -> terminal (fst e) = true -> post = [].
Proof.
  induction 1 as [|b before [_ Hb] _ IH]; intros pre e post Heq He.
  - destruct pre as [|p pre]; cbn in Heq.
    + injection Heq as _ <-. reflexivity.
    + injection Heq as _ Heq. destruct pre; discriminate Heq.
  - destruct pre as [|p pre]; cbn in Heq.
    + injection Heq as -> _. congruence.
    + injection Heq as _ Heq. exact (IH pre e post Heq He).
Qed.

Lemma terminal_count (before : list event) (n : node) :
  Forall (fun e => u_answer (snd e) = None /\ terminal (fst e) = false) before ->
  terminal n = true -> count_node n before = 0%nat.
Proof.
  induction 1 as [|b before [_ Hb] _ IH]; intros Hn; [reflexivity|].
  rewrite count_node_cons, (IH Hn).
  destruct b as [m u]; cbn [fst] in *.
  destruct n, m; try discriminate Hn; try discriminate Hb; reflexivity.
Qed.

End PathFacts.

(** * The statements about agent.py *)

(** C1, as the code has it: when [result] holds the text "Error:"
    nowhere, the router returns "summarize_result" and the graph goes
    to the summarizer, whatever [retries] is, present or not. *)
Theorem C1_no_marker_goes_to_summarize (s : AgentState) (x : string) :
  result s = Some x -> contains "Error:" x = false ->
  decide_result_status s = Ok "summarize_result"
  /\ next_node execute_query s = Ok summarize_result.
Proof. exact (route_success s x). Qed.

Lemma C1_no_marker_witness :
  decide_result_status rows_returned = Ok "summarize_result"
  /\ next_node execute_query rows_returned = Ok summarize_result.
Proof.
  apply (C1_no_marker_goes_to_summarize rows_returned "[(3,)]"); reflexivity.
Defined.

(** C1 as worded fails: a [result] that does not start with "Error:"
    but holds it further on is routed back to the generator. *)
Lemma C1_prefix_counterexample :
  ~ (forall (s : AgentState) (x : string),
        result s = Some x -> startswith "Error:" x = false ->
        decide_result_status s = Ok "summarize_result").
Proof.
  intros H.
  specialize (H marker_inside "[('Error: disk full',)]" eq_refl eq_refl).
  discriminate H.
Qed.

(** The counterexample of C1 inside a run: every execution succeeds
    with rows that hold the marker, and the run repeats the generation
    8 times and ends at the failure explainer. *)
Example rows_with_marker_run :
  match graph_invoke rows_with_marker 18 (initial_state "Which notes?" []) with
  | Done tr sf =>
      result sf = Some "[('Error: disk full',)]"
      /\ count_node generate_query tr = 8%nat
      /\ count_node summarize_result tr = 0%nat
      /\ count_node handle_error tr = 1%nat
  | _ => False
  end.
Proof. vm_compute. repeat split. Qed.

(** C2: when [result] starts with "Error:", the router goes back to
    the generator if [retries <= 7] and to the failure explainer if
    [retries > 7]; the failure explainer leads to [END], and in every
    run it is scheduled at most once, as the last node. *)
Theorem C2_marker_routes_by_retries
  (W : World) (s0 s : AgentState) (x : string) (n : Z) :
  result s = Some x -> startswith "Error:" x = true -> retries s = Some n ->
  ((n <= 7)%Z ->
     decide_result_status s = Ok "generate_query"
     /\ next_node execute_query s = Ok generate_query)
  /\ ((n > 7)%Z ->
     decide_result_status s = Ok "handle_error"
     /\ next_node execute_query s = Ok handle_error)
  /\ (forall st, next_node handle_error st = Ok END)
  /\ exists tr sf,
       graph_invoke W (enough_fuel s0) s0 = Done tr sf
       /\ (count_node handle_error tr <= 1)%nat
       /\ forall pre e post,
            tr = pre ++ e :: post -> fst e = handle_error -> post = [].
Proof.
  intros Hr Hp Hn. apply startswith_contains in Hp.
  destruct (route_failure s x n Hr Hp Hn) as [Hd Hnext].
  split; [|split; [|split]].
  - intros Hle. rewrite Hd, Hnext.
    replace (n >? 7)%Z with false; [split; reflexivity|].
    symmetry. destruct (Z.gtb_spec n 7); [lia | reflexivity].
  - intros Hgt. rewrite Hd, Hnext.
    replace (n >? 7)%Z with true; [split; reflexivity|].
    symmetry. apply Z.gtb_lt. lia.
  - reflexivity.
  - destruct (run_graph W (enough_fuel s0) s0 (le_n _)) as (tr & sf & Hrun & Hpath & _).
    exists tr, sf. split; [exact Hrun|].
    destruct (graph_answered s0 tr Hpath) as (before & m & a & -> & Hm & Hbefore & _).
    split.
    + rewrite count_node_app, (terminal_count before handle_error Hbefore eq_refl).
      rewrite count_node_cons. cbn [fst].
      change (count_node handle_error []) with 0%nat.
      destruct (node_eqb handle_error m); lia.
    + intros pre e post Heq He.
      apply (terminal_is_last before (m, upd_answer a) Hbefore pre e post Heq).
      rewrite He. reflexivity.
Qed.

Lemma C2_marker_witness :
  decide_result_status third_failure = Ok "generate_query"
  /\ next_node execute_query third_failure = Ok generate_query.
Proof.
  refine (proj1 (C2_marker_routes_by_retries always_failing third_failure
                   third_failure
                   "Error: (sqlite3.OperationalError) no such table: task" 3
                   _ _ _) _).
  - reflexivity.
  - reflexivity.
  - reflexivity.
  - lia.
Defined.

(** C3: a run that starts with [retries] absent or 0 completes within
    18 nodes whatever the services answer; the generator runs at most
    8 times, no write of [retries] and no final value exceeds 8, and
    the run ends at a terminal node. *)
Theorem C3_at_most_eight_generations (W : World) (s0 : AgentState) (fuel : nat) :
  get_retries s0 = 0%Z -> (18 <= fuel)%nat ->
  exists tr sf,
    graph_invoke W fuel s0 = Done tr sf
    /\ (count_node generate_query tr <= 8)%nat
    /\ Forall (fun e => forall v, u_retries (snd e) = Some v -> (v <= 8)%Z) tr
    /\ (get_retries sf <= 8)%Z
    /\ answered_once tr sf.
Proof.
  intros H0 Hfuel.
  destruct (run_graph W fuel s0) as (tr & sf & Hrun & Hpath & ->).
  { unfold enough_fuel. rewrite H0. cbn. exact Hfuel. }
  exists tr, (replay s0 tr). split; [exact Hrun|].
  pose proof (graph_answered s0 tr Hpath) as Hans.
  destruct Hpath as [i a Hi | rest Hpath].
  - split; [cbn; lia|]. split; [|split; [|exact Hans]].
    + repeat (apply Forall_cons || apply Forall_nil); cbn; intros v Hv; discriminate Hv.
    + change (get_retries s0 <= 8)%Z. lia.
  - rewrite H0 in Hpath. split; [|split; [|split; [|exact Hans]]].
    + rewrite count_node_cons. cbn [fst node_eqb].
      pose proof (db_count_generate 0 rest Hpath). lia.
    + constructor; [cbn; intros v Hv; discriminate Hv|].
      eapply Forall_impl; [|exact (db_retries_written 0 rest Hpath)].
      cbn. intros e He v Hv. specialize (He v Hv). lia.
    + change (get_retries
                (replay (apply_update s0 (upd_intent "DatabaseQuery")) rest) <= 8)%Z.
      pose proof (db_final_retries 0 rest Hpath
                    (apply_update s0 (upd_intent "DatabaseQuery"))). lia.
Qed.

Lemma C3_eight_generations_witness :
  exists tr sf,
    graph_invoke always_failing 18 (initial_state "How many tasks?" []) = Done tr sf
    /\ (count_node generate_query tr <= 8)%nat
    /\ Forall (fun e => forall v, u_retries (snd e) = Some v -> (v <= 8)%Z) tr
    /\ (get_retries sf <= 8)%Z
    /\ answered_once tr sf.
Proof.
  apply (C3_at_most_eight_generations always_failing
           (initial_state "How many tasks?" []) 18).
  - reflexivity.
  - lia.
Defined.

(** The bound of C3 is reached: when every execution fails, the
    generator runs exactly 8 times and the run ends at the failure
    explainer with [retries = 8]. *)
Example always_failing_run :
  match graph_invoke always_failing 18 (initial_state "How many tasks?" []) with
  | Done tr sf =>
      count_node generate_query tr = 8%nat
      /\ count_node handle_error tr = 1%nat
      /\ retries sf = Some 8%Z
      /\ query sf = Some "SELECT * FROM task"
      /\ answer sf = Some "Please name an existing table."
  | _ => False
  end.
Proof. vm_compute. repeat split. Qed.

(** C4: the generator returns a dict with exactly the keys [query]
    and [retries]: [query] is the model's text, stripped, freed of the
    fences and stripped again, and [retries] is the old value (0 when
    absent) plus 1; the merge leaves every other field as it was.
    Every run completes, and along every completed run, from any start
    state, the counter rises by exactly one at each generation and is
    left alone by every other node, so it never goes down; it reads 0
    at the start when the caller passes no [retries]. *)
Theorem C4_generate_writes_query_and_retries
  (W : World) (tick : nat) (s s0 : AgentState) :
  let raw_query :=
    generate_llm W tick (contains "Error:" (get (result s) ""))
      (question s) (get (chat_history s) []) (get_table_info W tick)
      (get (result s) "") in
  let sql_query :=
    strip (replace "```" "" (replace "```sql" "" (strip raw_query))) in
  let update :=
    {| u_query := Some sql_query; u_result := None; u_answer := None;
       u_retries := Some (get (retries s) 0 + 1)%Z; u_intent := None |} in
  generate_query_node W tick s = Ok update
  /\ (let s' := apply_update s update in
      query s' = Some sql_query
      /\ retries s' = Some (get (retries s) 0 + 1)%Z
      /\ question s' = question s
      /\ chat_history s' = chat_history s
      /\ result s' = result s
      /\ answer s' = answer s
      /\ intent s' = intent s)
  /\ (retries s0 = None -> get_retries s0 = 0%Z)
  /\ (exists tr sf, graph_invoke W (enough_fuel s0) s0 = Done tr sf)
  /\ (forall fuel tr sf,
        graph_invoke W fuel s0 = Done tr sf ->
        forall pre e post, tr = pre ++ e :: post ->
          (get_retries (replay s0 pre) <= get_retries (replay s0 (pre ++ [e])))%Z
          /\ (fst e = generate_query ->
              get_retries (replay s0 (pre ++ [e]))
              = (get_retries (replay s0 pre) + 1)%Z)
          /\ (fst e <> generate_query ->
              retries (replay s0 (pre ++ [e])) = retries (replay s0 pre))).
Proof.
  cbv zeta. split; [reflexivity|]. split; [cbn; repeat split|].
  split; [intros H0; unfold get_retries; rewrite H0; reflexivity|].
  split.
  - destruct (run_graph W (enough_fuel s0) s0 (le_n _)) as (tr & sf & Hrun & _).
    exists tr, sf. exact Hrun.
  - intros fuel tr sf Hrun pre e post Htr.
    destruct (graph_retries W fuel s0 sf tr Hrun pre e post Htr)
      as [[Hn Hsame]|[Hn Hplus]].
    + assert (Hg : get_retries (replay s0 (pre ++ [e])) = get_retries (replay s0 pre))
        by (unfold get_retries; rewrite Hsame; reflexivity).
      rewrite Hg. split; [lia|]. split; [intros He; contradiction | intros _; exact Hsame].
    + assert (Hg : get_retries (replay s0 (pre ++ [e]))
                   = (get_retries (replay s0 pre) + 1)%Z)
        by (unfold get_retries; rewrite Hplus; reflexivity).
      rewrite Hg. split; [lia|]. split; [intros _; reflexivity | intros He; contradiction].
Qed.

Lemma C4_generate_witness :
  get_retries (initial_state "How many tasks?" []) = 0%Z.
Proof.
  exact (proj1 (proj2 (proj2 (C4_generate_writes_query_and_retries always_failing 0
                                third_failure (initial_state "How many tasks?" []))))
           eq_refl).
Defined.

(** C5: the classifier never raises and always returns a dict with
    [intent]: "Conversation" when the model's reply has no tool call,
    the name of the first tool call otherwise; after the merge
    [intent] is set. *)
Theorem C5_classifier_always_sets_intent (W : World) (tick : nat) (s : AgentState) :
  let tool_calls := classify_llm W tick (question s) (get (chat_history s) []) in
  let chosen :=
    match tool_calls with
    | [] => "Conversation"
    | first :: _ => name first
    end in
  classify_intent_node W tick s = Ok (upd_intent chosen)
  /\ intent (apply_update s (upd_intent chosen)) = Some chosen.
Proof. cbv zeta. split; reflexivity. Qed.

(** C8: every run with enough fuel completes, and its trace is some
    events that neither write [answer] nor sit at a terminal node,
    followed by one last event, at the conversation handler, the
    summarizer or the failure explainer, whose dict holds [answer]
    alone; the final state carries that answer. *)
Theorem C8_answer_written_once_at_the_end (W : World) (s0 : AgentState) (fuel : nat) :
  (enough_fuel s0 <= fuel)%nat ->
  exists tr sf,
    graph_invoke W fuel s0 = Done tr sf /\ answered_once tr sf.
Proof.
  intros Hfuel.
  destruct (run_graph W fuel s0 Hfuel) as (tr & sf & Hrun & Hpath & ->).
  exists tr, (replay s0 tr). split; [exact Hrun|].
  exact (graph_answered s0 tr Hpath).
Qed.

Lemma C8_answer_witness :
  exists tr sf,
    graph_invoke no_selection 18 (initial_state "Aaj kya date?" []) = Done tr sf
    /\ answered_once tr sf.
Proof.
  apply (C8_answer_written_once_at_the_end no_selection
           (initial_state "Aaj kya date?" []) 18).
  vm_compute. apply le_n.
Defined.

(** C9: the branch after the classifier enters the database path for
    the intent "DatabaseQuery" and for no other text: every other
    intent is routed to the conversation handler. *)
Theorem C9_only_DatabaseQuery_enters_database_path (s : AgentState) (i : string) :
  intent s = Some i ->
  (i = "DatabaseQuery" ->
     decide_intent_path s = Ok "generate_query"
     /\ next_node classify_intent s = Ok generate_query)
  /\ (i <> "DatabaseQuery" ->
     decide_intent_path s = Ok "handle_conversation"
     /\ next_node classify_intent s = Ok handle_conversation).
Proof.
  intros Hi. unfold next_node, edges, decide_intent_path. rewrite Hi.
  cbn [getitem bind].
  destruct (String.eqb_spec i "DatabaseQuery") as [He|Hne]; split; intros H;
    try contradiction; split; reflexivity.
Qed.

Lemma C9_conversation_witness :
  decide_intent_path classified_conversation = Ok "handle_conversation"
  /\ next_node classify_intent classified_conversation = Ok handle_conversation.
Proof.
  refine (proj2 (C9_only_DatabaseQuery_enters_database_path
                   classified_conversation "Conversation" _) _).
  - reflexivity.
  - discriminate.
Defined.

(** * Properties of script.py *)

Section TextFacts.

Lemma decimal_not_floatspace (c : ascii) :
  isdecimal_char c = true -> isfloatspace_char c = false.
Proof. destruct c as [[] [] [] [] [] [] [] []]; intros H; try discriminate H; reflexivity. Qed.

Lemma decimal_not_sign (c : ascii) :
  isdecimal_char c = true -> Ascii.eqb c "+" || Ascii.eqb c "-" = false.
Proof. destruct c as [[] [] [] [] [] [] [] []]; intros H; try discriminate H; reflexivity. Qed.

(** Below 128 the digits of [str.isdigit] are the decimal ones. *)
Lemma ascii_digit_is_decimal (c : ascii) :
  (nat_of_ascii c <? 128)%nat = true -> isdigit_char c = true ->
  isdecimal_char c = true.
Proof.
  destruct c as [[] [] [] [] [] [] [] []]; intros Ha Hd;
    try discriminate Ha; try discriminate Hd; reflexivity.
Qed.

Lemma ascii_digits_are_decimal (s : string) :
  is_ascii s = true -> all_chars isdigit_char s = true ->
  all_chars isdecimal_char s = true.
Proof.
  unfold is_ascii. induction s as [|c s IH]; [reflexivity|]. cbn [all_chars].
  intros Ha Hd. apply andb_prop in Ha as [Hac Has]. apply andb_prop in Hd as [Hdc Hds].
  rewrite (ascii_digit_is_decimal c Hac Hdc), (IH Has Hds). reflexivity.
Qed.

Lemma decimals_no_blank (s : string) :
  all_chars isdecimal_char s = true ->
  all_chars (fun c => negb (isfloatspace_char c)) s = true.
Proof.
  induction s as [|c s IH]; [reflexivity|]. cbn [all_chars].
  intros H. apply andb_prop in H as [Hc Hs].
  rewrite (decimal_not_floatspace c Hc), (IH Hs). reflexivity.
Qed.

Lemma rstrip_by_no_blank (blank : ascii -> bool) (s : string) :
  all_chars (fun c => negb (blank c)) s = true -> rstrip_by blank s = s.
Proof.
  induction s as [|c s IH]; [reflexivity|]. cbn [all_chars rstrip_by].
  intros H. apply andb_prop in H as [Hc Hs]. rewrite (IH Hs).
  destruct s; [|reflexivity].
  destruct (blank c); [discriminate Hc | reflexivity].
Qed.

(** A text with no blank at all is left alone. *)
Lemma strip_by_no_blank (blank : ascii -> bool) (s : string) :
  all_chars (fun c => negb (blank c)) s = true -> strip_by blank s = s.
Proof.
  intros H. unfold strip_by.
  assert (Hl : lstrip_by blank s = s).
  { destruct s as [|c s]; [reflexivity|]. cbn [lstrip_by all_chars] in *.
    apply andb_prop in H as [Hc _].
    destruct (blank c); [discriminate Hc | reflexivity]. }
  rewrite Hl. apply rstrip_by_no_blank. exact H.
Qed.

Lemma skip_digits_all (s : string) :
  all_chars isdecimal_char s = true -> skip_digits s = EmptyString.
Proof.
  induction s as [|c s IH]; [reflexivity|]. cbn [all_chars skip_digits].
  intros H. apply andb_prop in H as [Hc Hs]. rewrite Hc. exact (IH Hs).
Qed.

Lemma floatnumber_decimals (c : ascii) (s : string) :
  all_chars isdecimal_char (String c s) = true -> floatnumber (String c s) = true.
Proof.
  cbn [all_chars]. intros H. apply andb_prop in H as [Hc Hs].
  unfold floatnumber, digitpart. rewrite Hc, (skip_digits_all s Hs). reflexivity.
Qed.

Lemma float_ok_body (v : string) :
  strip_by isfloatspace_char v = v -> floatnumber (drop_sign v) = true ->
  float_ok v = true.
Proof.
  intros Hs Hf. unfold float_ok. rewrite Hs, Hf. apply orb_true_r.
Qed.

(** A text below 128 that passes the integer test of line 39 is
    accepted by [float]. *)
Lemma integer_pattern_float_ok (v : string) :
  is_ascii v = true -> integer_pattern v = true -> float_ok v = true.
Proof.
  unfold integer_pattern. intros Ha H. apply orb_prop in H as [H|H].
  - destruct v as [|c v]; [discriminate H|]. unfold isdigit in H.
    pose proof (ascii_digits_are_decimal _ Ha H) as Hd.
    apply float_ok_body.
    + apply strip_by_no_blank, decimals_no_blank, Hd.
    + pose proof (floatnumber_decimals c v Hd) as Hf.
      cbn [all_chars] in Hd. apply andb_prop in Hd as [Hc _].
      unfold drop_sign. rewrite (decimal_not_sign c Hc). exact Hf.
  - apply andb_prop in H as [Hp Hd].
    destruct v as [|c v]; [discriminate Hp|].
    unfold startswith in Hp. cbn [String.prefix] in Hp.
    destruct (ascii_dec "-" c) as [<-|]; [|discriminate Hp].
    cbn [tail] in Hd.
    destruct v as [|d v]; [discriminate Hd|]. unfold isdigit in Hd.
    assert (Hav : is_ascii (String d v) = true).
    { unfold is_ascii in *. cbn [all_chars] in Ha.
      apply andb_prop in Ha as [_ Ha]. exact Ha. }
    pose proof (ascii_digits_are_decimal _ Hav Hd) as Hdec.
    apply float_ok_body.
    + apply strip_by_no_blank.
      pose proof (decimals_no_blank _ Hdec) as Hnb.
      cbn [all_chars] in Hnb |- *. rewrite Hnb. reflexivity.
    + cbn. apply (floatnumber_decimals d v Hdec).
Qed.

End TextFacts.

Section ColumnFacts.

Variable col : string.

(** Once the integer flag is down, every later text is parsed. *)
Lemma scan_column_not_integer (rows : list row) :
  scan_column col rows false true = (false, forallb float_ok (present (sampled col rows))).
Proof.
  induction rows as [|row rows IH]; [reflexivity|].
  unfold present in *. cbn [scan_column sampled map filter].
  destruct (String.eqb (py_str (dict_get row col (VStr ""))) ""); cbn [negb].
  - exact IH.
  - cbn [andb negb forallb].
    destruct (float_ok (py_str (dict_get row col (VStr "")))); cbn [andb negb].
    + exact IH.
    + reflexivity.
Qed.

(** The two flags after the whole loop. *)
Lemma scan_column_start (rows : list row) :
  scan_column col rows true true
  = (forallb integer_pattern (present (sampled col rows)),
     forallb integer_pattern (present (sampled col rows))
     || forallb float_ok (from_first_non_integer (present (sampled col rows)))).
Proof.
  induction rows as [|row rows IH]; [reflexivity|].
  unfold present in *. cbn [scan_column sampled map filter].
  destruct (String.eqb (py_str (dict_get row col (VStr ""))) ""); cbn [negb].
  - exact IH.
  - cbn [forallb from_first_non_integer].
    destruct (integer_pattern (py_str (dict_get row col (VStr "")))) eqn:Hi;
      cbn [andb negb orb].
    + exact IH.
    + cbn [forallb].
      destruct (float_ok (py_str (dict_get row col (VStr "")))); cbn [andb negb].
      * apply scan_column_not_integer.
      * reflexivity.
Qed.

(** The loop computes the rule of [scanned_type]. *)
Lemma column_type_scanned (rows : list row) :
  column_type col rows = scanned_type (sampled col rows).
Proof.
  unfold column_type, scanned_type. rewrite scan_column_start.
  destruct (forallb integer_pattern (present (sampled col rows))); [reflexivity|].
  cbn [orb]. reflexivity.
Qed.

(** Where every text that passes the integer test is accepted by
    [float], testing from the first failure on is testing them all. *)
Lemma from_first_non_integer_all (values : list string) :
  Forall (fun v => integer_pattern v = true -> float_ok v = true) values ->
  forallb integer_pattern values = false ->
  forallb float_ok (from_first_non_integer values) = forallb float_ok values.
Proof.
  induction 1 as [|v values Hv _ IH]; intros Hnot; [discriminate Hnot|].
  cbn [forallb from_first_non_integer] in *.
  destruct (integer_pattern v) eqn:Hi; [|reflexivity].
  rewrite (Hv eq_refl). cbn [andb] in *. exact (IH Hnot).
Qed.

(** On such a column the loop computes the rule as the interface
    description words it. *)
Lemma column_type_worded (rows : list row) :
  Forall (fun v => integer_pattern v = true -> float_ok v = true)
    (present (sampled col rows)) ->
  column_type col rows = worded_type (sampled col rows).
Proof.
  intros Hall. rewrite column_type_scanned. unfold scanned_type, worded_type.
  destruct (forallb integer_pattern (present (sampled col rows))) eqn:Hi;
    [reflexivity|].
  rewrite (from_first_non_integer_all _ Hall Hi). reflexivity.
Qed.

(** A row without the key leaves the flags as they are. *)
Lemma scan_column_skips_missing (before after : list row) (r : row) :
  lookup r col = None ->
  forall is_integer is_real,
    scan_column col (before ++ r :: after) is_integer is_real
    = scan_column col (before ++ after) is_integer is_real.
Proof.
  intros Hr. induction before as [|row before IH]; intros is_integer is_real.
  - cbn [app scan_column]. unfold dict_get. rewrite Hr. reflexivity.
  - cbn [app scan_column].
    destruct (String.eqb (py_str (dict_get row col (VStr ""))) ""); [apply IH|].
    match goal with
    | |- (if ?b then _ else _) = _ => destruct b; [reflexivity | apply IH]
    end.
Qed.

End ColumnFacts.

Section DictFacts.

Context {V : Type}.

Lemma lookup_dict_set (d : dict V) (key key' : string) (v : V) :
  lookup (dict_set d key v) key'
  = if String.eqb key key' then Some v else lookup d key'.
Proof.
  induction d as [|[k old] d IH]; cbn [dict_set lookup].
  - reflexivity.
  - destruct (String.eqb_spec k key) as [->|Hk]; cbn [lookup].
    + destruct (String.eqb key key'); reflexivity.
    + rewrite IH. destruct (String.eqb_spec k key') as [->|Hk'].
      * destruct (String.eqb_spec key key') as [->|]; [contradiction | reflexivity].
      * reflexivity.
Qed.

Lemma keys_dict_set (d : dict V) (key k : string) (v : V) :
  In k (keys (dict_set d key v)) <-> k = key \/ In k (keys d).
Proof.
  induction d as [|[k0 old] d IH]; cbn [dict_set keys map fst In].
  - intuition congruence.
  - destruct (String.eqb_spec k0 key) as [->|Hk]; cbn [keys map fst In].
    + intuition congruence.
    + unfold keys in IH. rewrite IH. intuition congruence.
Qed.

Variable f : string -> V.

Lemma lookup_fold_set (cols : list string) (key : string) :
  forall d, In key cols ->
    lookup (fold_left (fun acc c => dict_set acc c (f c)) cols d) key
    = Some (f key).
Proof.
  induction cols as [|c cols IH]; intros d Hin; [contradiction|].
  cbn [fold_left]. destruct (in_dec string_dec key cols) as [Hc|Hc].
  - apply IH. exact Hc.
  - destruct Hin as [->|Hin]; [|contradiction].
    clear IH. revert d.
    assert (Hgen : forall cs d, ~ In key cs ->
              lookup (fold_left (fun acc c => dict_set acc c (f c)) cs d) key
              = lookup d key).
    { induction cs as [|c cs IH]; intros d Hn; [reflexivity|].
      cbn [fold_left]. rewrite IH by (intros H; apply Hn; right; exact H).
      rewrite lookup_dict_set.
      destruct (String.eqb_spec c key) as [->|]; [|reflexivity].
      exfalso. apply Hn. left. reflexivity. }
    intros d. rewrite (Hgen cols _ Hc), lookup_dict_set, String.eqb_refl.
    reflexivity.
Qed.

Lemma keys_fold_set (cols : list string) (k : string) :
  forall d,
    In k (keys (fold_left (fun acc c => dict_set acc c (f c)) cols d))
    <-> In k cols \/ In k (keys d).
Proof.
  induction cols as [|c cols IH]; intros d; cbn [fold_left In].
  - intuition.
  - rewrite IH, keys_dict_set. intuition congruence.
Qed.

End DictFacts.

Section InferFacts.

Lemma truthy_iff (c : string) : truthy c = true <-> c <> "".
Proof.
  unfold truthy. destruct (String.eqb_spec c ""); cbn; split; congruence.
Qed.

Lemma in_table_columns (first : row) (rest : list row) (c : string) :
  In c (table_columns (first :: rest)) <-> In c (keys first) /\ c <> "".
Proof.
  cbn [table_columns]. rewrite filter_In, truthy_iff. reflexivity.
Qed.

(** The entry of a retained column is the type the loop finds for it. *)
Lemma lookup_infer (first : row) (rest : list row) (c : string) :
  In c (keys first) -> c <> "" ->
  lookup (infer_column_types (first :: rest)) c
  = Some (column_type c (first :: rest)).
Proof.
  intros Hin Hne. cbn [infer_column_types].
  apply (lookup_fold_set (fun c => column_type c (first :: rest))).
  apply filter_In. split; [exact Hin | apply truthy_iff; exact Hne].
Qed.

Lemma all_empty_nothing_present (values : list string) :
  Forall (fun v => v = "") values -> present values = [].
Proof.
  induction 1 as [|v values -> _ IH]; [reflexivity|]. cbn. exact IH.
Qed.

End InferFacts.

(** * The statements about script.py *)

(** C6, as the code has it: a column whose cells are all the empty
    text, or absent from their row, is given the type INTEGER. *)
Theorem C6_empty_column_is_INTEGER (first : row) (rest : list row) (col : string) :
  In col (keys first) -> col <> "" ->
  Forall (fun v => v = "") (sampled col (first :: rest)) ->
  lookup (infer_column_types (first :: rest)) col = Some "INTEGER".
Proof.
  intros Hin Hne Hall.
  rewrite (lookup_infer first rest col Hin Hne), column_type_scanned.
  unfold scanned_type. rewrite (all_empty_nothing_present _ Hall). reflexivity.
Qed.

Lemma C6_empty_column_witness :
  lookup (infer_column_types [[("a", VStr "")]; [("a", VStr "")]; [("b", VInt 1)]]) "a"
  = Some "INTEGER".
Proof.
  apply (C6_empty_column_is_INTEGER [("a", VStr "")]
           [[("a", VStr "")]; [("b", VInt 1)]] "a").
  - left. reflexivity.
  - discriminate.
  - repeat constructor.
Defined.

(** C6 as worded fails: the column [a] with the two cells [""] and
    [""] is not given the type TEXT. *)
Lemma C6_empty_column_counterexample :
  ~ (forall (col : string) (values : list string),
        col <> "" -> values <> [] -> Forall (fun v => v = "") values ->
        lookup (infer_column_types (column_rows col values)) col = Some "TEXT").
Proof.
  intros H.
  specialize (H "a" [""; ""]).
  assert (Hl : lookup (infer_column_types (column_rows "a" [""; ""])) "a"
               = Some "INTEGER") by reflexivity.
  rewrite Hl in H.
  assert (Hc : Some "INTEGER" = Some "TEXT").
  { apply H; [discriminate | discriminate | repeat constructor]. }
  discriminate Hc.
Qed.

(** A cell that is null is not an empty one for the loop: [str] turns
    it into the text "None", which the loop reads as any other text. *)
Example null_column_is_TEXT :
  infer_column_types [[("a", VNone)]; [("a", VNone)]] = [("a", "TEXT")].
Proof. reflexivity. Qed.




(** What the two built-ins say of the superscript two. *)
Example superscript_two_is_a_digit_and_no_float :
  isdigit superscript_two = true /\ float_ok superscript_two = false.
Proof. split; reflexivity. Qed.

(** C10: the columns of a created table are the non-empty keys of the
    first row and nothing else, in the CREATE TABLE statement and in
    the INSERT statement alike; a key that only later rows have is not
    among them; a row that lacks a retained key is inserted with null
    at that place, and leaves the type inference of that column as if
    the row were not there. *)
Theorem C10_columns_come_from_first_row
  (table_name : string) (first : row) (rest : list row) :
  let rows := first :: rest in
  let columns := filter truthy (keys first) in
  (forall c, In c (keys (infer_column_types rows)) <-> In c (keys first) /\ c <> "")
  /\ (forall c, In c columns <-> In c (keys first) /\ c <> "")
  /\ (forall c, ~ In c (keys first) ->
        ~ In c (keys (infer_column_types rows)) /\ ~ In c columns)
  /\ (columns <> [] ->
        write_table table_name rows
        = [ Execute (String.append "DROP TABLE IF EXISTS " (sanitize table_name));
            Execute (create_table_sql (sanitize table_name) (infer_column_types rows));
            ExecuteMany (insert_sql (sanitize table_name) columns)
                        (values_to_insert columns rows) ])
  /\ (forall i j r c,
        nth_error rows i = Some r -> nth_error columns j = Some c ->
        lookup r c = None ->
        exists tuple,
          nth_error (values_to_insert columns rows) i = Some tuple
          /\ nth_error tuple j = Some VNone)
  /\ (forall c before r after,
        lookup r c = None ->
        column_type c (before ++ r :: after) = column_type c (before ++ after)).
Proof.
  intros rows columns.
  assert (Hcols : forall c, In c columns <-> In c (keys first) /\ c <> "")
    by (intros c; exact (in_table_columns first rest c)).
  assert (Hkeys : forall c, In c (keys (infer_column_types rows))
                            <-> In c (keys first) /\ c <> "").
  { intros c. unfold rows. cbn [infer_column_types].
    rewrite (keys_fold_set (fun c => column_type c (first :: rest))).
    fold columns. rewrite Hcols. cbn [keys map In]. tauto. }
  split; [exact Hkeys|]. split; [exact Hcols|]. split; [|split; [|split]].
  - intros c Hc. rewrite Hkeys, Hcols. tauto.
  - intros Hne. unfold write_table, rows. cbn [table_columns]. fold columns.
    destruct columns; [contradiction | reflexivity].
  - intros i j r c Hi Hj Hr.
    exists (map (fun col => dict_get r col VNone) columns). split.
    + unfold values_to_insert.
      exact (map_nth_error (fun row => map (fun col => dict_get row col VNone) columns)
               i rows Hi).
    + rewrite (map_nth_error (fun col => dict_get r col VNone) j columns Hj).
      unfold dict_get. rewrite Hr. reflexivity.
  - intros c before r after Hr. unfold column_type.
    rewrite (scan_column_skips_missing c before after r Hr). reflexivity.
Qed.

Lemma C10_late_key_witness :
  ~ In "z" (keys (infer_column_types ragged_sheet))
  /\ ~ In "z" (filter truthy (keys [("a", VStr "1"); ("", VStr "x"); ("b", VStr "2.5")])).
Proof.
  refine (proj1 (proj2 (proj2 (C10_columns_come_from_first_row "Sheet 1"
            [("a", VStr "1"); ("", VStr "x"); ("b", VStr "2.5")]
            [[("a", VInt 3); ("z", VStr "late")]]))) "z" _).
  cbn. intros [H|[H|[H|[]]]]; discriminate H.
Defined.

(** What [write_to_sqlite] sends for the ragged sheet: [z] is in no
    statement, and the second row is inserted with null for [b]. *)
Example ragged_sheet_statements :
  write_to_sqlite [("Sheet 1", ragged_sheet)] "sheets.db"
  = [ Connect "sheets.db";
      Execute "DROP TABLE IF EXISTS Sheet1";
      Execute (concat_all ["CREATE TABLE Sheet1 ("; quoted "a"; " INTEGER, ";
                           quoted "b"; " REAL)"]);
      ExecuteMany (concat_all ["INSERT INTO Sheet1 ("; quoted "a"; ", ";
                               quoted "b"; ") VALUES (?, ?)"])
                  [[VStr "1"; VStr "2.5"]; [VInt 3; VNone]];
      Commit; Close ].
Proof. reflexivity. Qed.

(** * Further properties of agent.py *)

Section MoreRunFacts.

Variable W : World.

Lemma run_from_S (fuel tick : nat) (n : node) (s : AgentState) :
  run_from W (S fuel) tick n s
  = match n with
    | END => Done [] s
    | _ =>
        match run_node W tick n s with
        | Raise e => Raised e
        | Ok u =>
            match next_node n (apply_update s u) with
            | Raise e => Raised e
            | Ok n' =>
                match run_from W fuel (S tick) n' (apply_update s u) with
                | Done trace final => Done ((n, u) :: trace) final
                | other => other
                end
            end
        end
    end.
Proof. destruct n; reflexivity. Qed.

(** More fuel does not change a run that has ended, well or not. *)
Lemma run_from_one_more (fuel : nat) :
  forall (tick : nat) (n : node) (s : AgentState),
    run_from W fuel tick n s <> OutOfFuel ->
    run_from W (S fuel) tick n s = run_from W fuel tick n s.
Proof.
  induction fuel as [|fuel IH]; intros tick n s Hend.
  - destruct n; try (exfalso; apply Hend; reflexivity).
    rewrite !run_from_END. reflexivity.
  - rewrite (run_from_S (S fuel)). rewrite run_from_S in Hend |- *.
    destruct n; try reflexivity.
    all: destruct (run_node W tick _ s) as [u|]; [|reflexivity].
    all: destruct (next_node _ (apply_update s u)) as [n'|]; [|reflexivity].
    all: rewrite IH; [reflexivity|].
    all: intros Hout; rewrite Hout in Hend; apply Hend; reflexivity.
Qed.

Lemma run_from_more_fuel (fuel extra tick : nat) (n : node) (s : AgentState) :
  run_from W fuel tick n s <> OutOfFuel ->
  run_from W (extra + fuel) tick n s = run_from W fuel tick n s.
Proof.
  intros Hend. induction extra as [|extra IH]; [reflexivity|].
  cbn [Nat.add]. rewrite run_from_one_more; [exact IH|].
  rewrite IH. exact Hend.
Qed.

(** A completed run has one of the two shapes, whatever fuel it had. *)
Lemma done_graph_path (fuel : nat) (s sf : AgentState) (tr : list event) :
  graph_invoke W fuel s = Done tr sf ->
  graph_path s tr /\ sf = replay s tr.
Proof.
  intros Hrun.
  destruct (run_graph W (enough_fuel s + fuel) s) as (tr' & sf' & Hrun' & Hpath & Hsf);
    [lia|].
  unfold graph_invoke in *.
  rewrite run_from_more_fuel in Hrun' by (rewrite Hrun; discriminate).
  rewrite Hrun in Hrun'. injection Hrun' as <- <-.
  split; assumption.
Qed.

(** Each event of a run holds what its node returned on the state the
    events before it left. *)
Lemma run_from_events (fuel : nat) :
  forall (tick : nat) (n : node) (s sf : AgentState) (tr : list event),
    run_from W fuel tick n s = Done tr sf ->
    forall pre e post, tr = pre ++ e :: post ->
      run_node W (tick + List.length pre) (fst e) (replay s pre) = Ok (snd e).
Proof.
  induction fuel as [|fuel IH]; intros tick n s sf tr H pre e post Htr.
  - destruct n; try discriminate H; rewrite run_from_END in H;
      injection H as <- <-; destruct pre; discriminate Htr.
  - rewrite run_from_S in H.
    destruct n; try (injection H as <- <-; destruct pre; discriminate Htr).
    all: destruct (run_node W tick _ s) as [u|] eqn:Hu; try discriminate H.
    all: destruct (next_node _ (apply_update s u)) as [n'|]; try discriminate H.
    all: destruct (run_from W fuel (S tick) n' (apply_update s u)) as [tr' sf'| |] eqn:Hrun;
      try discriminate H.
    all: injection H as <- <-.
    all: destruct pre as [|p pre];
      [ injection Htr as <- _; cbn [List.length fst snd];
        rewrite Nat.add_0_r; exact Hu
      | injection Htr as <- Htr; cbn [List.length];
        rewrite Nat.add_succ_r;
        exact (IH _ _ _ _ _ Hrun pre e post Htr) ].
Qed.

End MoreRunFacts.

Section MorePathFacts.

Lemma replay_question (tr : list event) :
  forall s, question (replay s tr) = question s.
Proof.
  induction tr as [|e tr IH]; intros s; [reflexivity|].
  change (replay s (e :: tr)) with (replay (apply_update s (snd e)) tr).
  rewrite IH. reflexivity.
Qed.

(** On the database path [retries] counts the runs of the generator. *)
Lemma db_retries_count (r : Z) (tr : list event) :
  db_path r tr ->
  forall s, get_retries (replay s tr)
            = (r + Z.of_nat (count_node generate_query tr))%Z.
Proof.
  induction 1 as [r q x a _ | r q x a _ _ | r q x rest _ Hle _ IH]; intros s.
  - cbn. lia.
  - cbn. lia.
  - change (replay s ((generate_query, upd_generate q (r + 1))
                        :: (execute_query, upd_result x) :: rest))
      with (replay (apply_update (apply_update s (upd_generate q (r + 1)))
                      (upd_result x)) rest).
    rewrite IH, !count_node_cons. cbn [fst node_eqb]. lia.
Qed.

(** The last three events of the database path. *)
Lemma db_path_tail (r : Z) (tr : list event) :
  db_path r tr ->
  exists mid q x n a r',
    tr = mid ++ [(generate_query, upd_generate q r');
                 (execute_query, upd_result x);
                 (n, upd_answer a)]
    /\ ((n = summarize_result /\ contains "Error:" x = false)
        \/ (n = handle_error /\ contains "Error:" x = true /\ (7 < r')%Z)).
Proof.
  induction 1 as [r q x a Hx | r q x a Hx Hr | r q x rest Hx Hle _ IH].
  - exists [], q, x, summarize_result, a, (r + 1)%Z.
    split; [reflexivity | left; split; [reflexivity | exact Hx]].
  - exists [], q, x, handle_error, a, (r + 1)%Z.
    split; [reflexivity | right; repeat split; assumption].
  - destruct IH as (mid & q' & x' & n & a & r' & -> & Hn).
    exists ((generate_query, upd_generate q (r + 1))
              :: (execute_query, upd_result x) :: mid), q', x', n, a, r'.
    split; [reflexivity | exact Hn].
Qed.

End MorePathFacts.

Section CleaningFacts.

Lemma rstrip_idempotent (s : string) : rstrip (rstrip s) = rstrip s.
Proof.
  induction s as [|c s IH]; [reflexivity|]. cbn [rstrip].
  destruct (rstrip s) as [|d t] eqn:Ht.
  - destruct (isspace_char c) eqn:Hc; [reflexivity|].
    cbn [rstrip]. rewrite Hc. reflexivity.
  - cbn [rstrip]. cbn [rstrip] in IH. rewrite IH. reflexivity.
Qed.

(** What [lstrip] leaves does not start with a blank. *)
Lemma lstrip_head (s : string) :
  lstrip s = EmptyString
  \/ exists c r, lstrip s = String c r /\ isspace_char c = false.
Proof.
  induction s as [|c s IH]; [left; reflexivity|]. cbn [lstrip].
  destruct (isspace_char c) eqn:Hc; [exact IH|].
  right. exists c, s. split; [reflexivity | exact Hc].
Qed.

Lemma rstrip_keeps_head (c : ascii) (r : string) :
  isspace_char c = false -> exists r', rstrip (String c r) = String c r'.
Proof.
  intros Hc. cbn [rstrip]. destruct (rstrip r).
  - rewrite Hc. eexists. reflexivity.
  - eexists. reflexivity.
Qed.

Lemma strip_fixed (s : string) :
  lstrip (strip s) = strip s /\ rstrip (strip s) = strip s.
Proof.
  unfold strip. split; [|apply rstrip_idempotent].
  destruct (lstrip_head s) as [-> | (c & r & -> & Hc)]; [reflexivity|].
  destruct (rstrip_keeps_head c r Hc) as [r' ->].
  cbn [lstrip]. rewrite Hc. reflexivity.
Qed.

Lemma startswith_app (p a w : string) :
  startswith p a = true -> startswith p (String.append a w) = true.
Proof.
  unfold startswith. revert a. induction p as [|c p IH]; intros a H;
    [destruct (String.append a w); reflexivity|].
  destruct a as [|d a]; [discriminate H|]. cbn [String.append String.prefix] in *.
  destruct (ascii_dec c d); [apply IH; exact H | discriminate H].
Qed.

Lemma contains_app (p a w : string) :
  contains p a = true -> contains p (String.append a w) = true.
Proof.
  induction a as [|d a IH]; cbn [contains String.append]; intros H.
  - apply orb_prop in H as [H|H]; [|discriminate H].
    destruct p; [|discriminate H].
    destruct w; reflexivity.
  - apply orb_prop in H as [H|H].
    + change (String d (String.append a w)) with (String.append (String d a) w).
      rewrite (startswith_app p (String d a) w H). reflexivity.
    + rewrite (IH H). apply orb_true_r.
Qed.

Lemma rstrip_prefix (s : string) : exists w, s = String.append (rstrip s) w.
Proof.
  induction s as [|c s [w IH]]; [exists EmptyString; reflexivity|].
  cbn [rstrip]. destruct (rstrip s) as [|d t] eqn:Ht.
  - destruct (isspace_char c).
    + exists (String c s). reflexivity.
    + exists w. cbn [String.append] in *. rewrite <- IH. reflexivity.
  - exists w. cbn [String.append] in *. rewrite <- IH. reflexivity.
Qed.

(** [strip] brings in nothing that was not in the text. *)
Lemma contains_strip (p s : string) :
  contains p s = false -> contains p (strip s) = false.
Proof.
  intros H. unfold strip.
  assert (Hl : contains p (lstrip s) = false).
  { induction s as [|c s IH]; [exact H|]. cbn [lstrip].
    destruct (isspace_char c); [|exact H].
    apply IH. cbn [contains] in H. apply orb_false_elim in H as [_ H]. exact H. }
  destruct (contains p (rstrip (lstrip s))) eqn:Hr; [|reflexivity].
  destruct (rstrip_prefix (lstrip s)) as [w Hw].
  apply (contains_app p _ w) in Hr. rewrite <- Hw, Hl in Hr. discriminate Hr.
Qed.

(** After the fences are taken out from the left, what is written
    does not start with two back quotes unless the text did. *)
Lemma replace_fence_head (s : string) :
  String.prefix "``" s = false ->
  String.prefix "``" (replace_from "```" "" 0 s) = false.
Proof.
  intros H. destruct s as [|a s]; [reflexivity|].
  cbn [String.prefix] in H. unfold replace_from; fold replace_from.
  unfold startswith. cbn [String.prefix].
  destruct (ascii_dec "`" a) as [<-|Ha].
  - destruct s as [|b s]; [reflexivity|].
    cbn [String.prefix] in H |- *.
    destruct (ascii_dec "`" b) as [<-|Hb].
    + destruct s; discriminate H.
    + cbn [String.prefix]. destruct (ascii_dec "`" "`"); [|reflexivity].
      unfold replace_from; fold replace_from. unfold startswith.
      cbn [String.prefix]. destruct (ascii_dec "`" b); [contradiction|].
      cbn [String.prefix]. destruct (ascii_dec "`" b); [contradiction | reflexivity].
  - cbn [String.prefix]. destruct (ascii_dec "`" a); [contradiction | reflexivity].
Qed.

(** No fence is left once the fences are taken out. *)
Lemma replace_fence_none (s : string) :
  forall skip, contains "```" (replace_from "```" "" skip s) = false.
Proof.
  induction s as [|c s IH]; intros skip; [reflexivity|].
  unfold replace_from; fold replace_from.
  destruct skip as [|k]; [|apply IH].
  destruct (startswith "```" (String c s)) eqn:Hm.
  - cbn [String.length Nat.sub String.append]. apply IH.
  - cbn [contains]. rewrite IH, orb_false_r.
    unfold startswith in *. cbn [String.prefix] in *.
    destruct (ascii_dec "`" c); [|reflexivity].
    apply replace_fence_head. exact Hm.
Qed.

End CleaningFacts.

Section DictFacts2.

Variable W : World.



(** When a node raises on a state. *)
Lemma run_node_raises (tick : nat) (n : node) (s : AgentState) (e : exn) :
  run_node W tick n s = Raise e <->
    (e = KeyError "query" /\ query s = None
     /\ (n = execute_query \/ n = handle_error
         \/ (n = summarize_result /\ result s <> None)))
    \/ (e = KeyError "result" /\ n = summarize_result /\ result s = None).
Proof.
  split.
  - destruct n; cbn [run_node]; try discriminate.
    + unfold execute_query_node. destruct (query s) eqn:Hq; cbn [getitem bind];
        [discriminate|].
      intros H. injection H as <-. left. repeat split. left. reflexivity.
    + unfold summarize_result_node.
      destruct (result s) eqn:Hr; cbn [getitem bind].
      * destruct (query s) eqn:Hq; cbn [getitem bind]; [discriminate|].
        intros H. injection H as <-. left. repeat split.
        right. right. split; [reflexivity | discriminate].
      * intros H. injection H as <-. right. repeat split.
    + unfold handle_error_node. destruct (query s) eqn:Hq; cbn [getitem bind];
        [discriminate|].
      intros H. injection H as <-. left. repeat split. right. left. reflexivity.
  - intros [(-> & Hq & [-> | [-> | [-> Hr]]]) | (-> & -> & Hr)]; cbn [run_node].
    + unfold execute_query_node. rewrite Hq. reflexivity.
    + unfold handle_error_node. rewrite Hq. reflexivity.
    + unfold summarize_result_node. destruct (result s); [|contradiction].
      rewrite Hq. reflexivity.
    + unfold summarize_result_node. rewrite Hr. reflexivity.
Qed.

End DictFacts2.

Section FinalFacts.

(** The last two events of a run on the database path, read back
    from the final state. *)
Lemma database_final_facts
  (W : World) (fuel : nat) (s sf : AgentState) (tr : list event) :
  graph_invoke W fuel s = Done tr sf ->
  intent sf = Some "DatabaseQuery" ->
  exists q x,
    query sf = Some q
    /\ result sf = Some x
    /\ x = execute_query_tool W (List.length tr - 2) q
    /\ ((contains "Error:" x = false
         /\ answer sf
            = Some (summarize_llm W (List.length tr - 1) (question s) q x))
        \/ (contains "Error:" x = true
            /\ (7 < get_retries sf)%Z
            /\ answer sf
               = Some (explain_llm W (List.length tr - 1) (question s) q x))).
Proof.
  intros Hrun Hi.
  destruct (done_graph_path W fuel s sf tr Hrun) as [Hpath ->].
  destruct Hpath as [i a Hne | rest Hpath].
  - cbn in Hi. injection Hi as Hi. contradiction.
  - destruct (db_path_tail _ _ Hpath) as (mid & q & x & n & a & r' & -> & Hn).
    unfold graph_invoke in Hrun. unfold event in *.
    set (c := (classify_intent, upd_intent "DatabaseQuery")) in *.
    set (g := (generate_query, upd_generate q r')) in *.
    set (ex := (execute_query, upd_result x)) in *.
    set (t := (n, upd_answer a)) in *.
    assert (Hlen : List.length (c :: mid ++ [g; ex; t]) = (List.length mid + 4)%nat)
      by (cbn [List.length]; rewrite length_app; cbn [List.length]; lia).
    assert (Hl1 : List.length (c :: mid ++ [g]) = (List.length mid + 2)%nat)
      by (cbn [List.length]; rewrite length_app; cbn [List.length]; lia).
    assert (Hl2 : List.length (c :: mid ++ [g; ex]) = (List.length mid + 3)%nat)
      by (cbn [List.length]; rewrite length_app; cbn [List.length]; lia).
    assert (Hsplit1 : c :: mid ++ [g; ex; t] = (c :: mid ++ [g]) ++ ex :: [t])
      by (cbn [app]; rewrite <- app_assoc; reflexivity).
    assert (Hsplit2 : c :: mid ++ [g; ex; t] = (c :: mid ++ [g; ex]) ++ t :: [])
      by (cbn [app]; rewrite <- app_assoc; reflexivity).
    pose proof (run_from_events W _ _ _ _ _ _ Hrun _ _ _ Hsplit1) as He.
    pose proof (run_from_events W _ _ _ _ _ _ Hrun _ _ _ Hsplit2) as Ht.
    unfold event in *.
    rewrite Hl1 in He. rewrite Hl2 in Ht. cbn [Nat.add fst snd] in He, Ht.
    rewrite Hlen.
    replace (List.length mid + 4 - 2)%nat with (List.length mid + 2)%nat by lia.
    replace (List.length mid + 4 - 1)%nat with (List.length mid + 3)%nat by lia.
    (* the states the last two nodes ran on *)
    assert (Hs1 : replay s (c :: mid ++ [g])
                  = apply_update (replay s (c :: mid)) (snd g))
      by (rewrite app_comm_cons, replay_app; reflexivity).
    assert (Hs2 : replay s (c :: mid ++ [g; ex])
                  = apply_update (apply_update (replay s (c :: mid)) (snd g)) (snd ex))
      by (rewrite app_comm_cons, replay_app; reflexivity).
    assert (Hs3 : replay s (c :: mid ++ [g; ex; t])
                  = apply_update
                      (apply_update (apply_update (replay s (c :: mid)) (snd g))
                         (snd ex)) (snd t))
      by (rewrite app_comm_cons, replay_app; reflexivity).
    rewrite Hs1 in He. rewrite Hs2 in Ht. rewrite Hs3.
    set (s0 := replay s (c :: mid)) in *.
    assert (Hq0 : question s0 = question s) by apply replay_question.
    exists q, x. split; [reflexivity|]. split; [reflexivity|].
    assert (Hx : x = execute_query_tool W (List.length mid + 2) q).
    { assert (E : Ok (upd_result (execute_query_tool W (List.length mid + 2) q))
                  = Ok (upd_result x)) by exact He.
      injection E as E. symmetry. exact E. }
    split; [exact Hx|].
    destruct Hn as [[Hn Hc] | (Hn & Hc & Hr)]; subst t; rewrite Hn in *.
    + left. split; [exact Hc|].
      assert (E : Ok (upd_answer (summarize_llm W (List.length mid + 3)
                                    (question s0) q x))
                  = Ok (upd_answer a)) by exact Ht.
      injection E as E. rewrite <- Hq0, E. reflexivity.
    + right. split; [exact Hc|]. split; [exact Hr|].
      assert (E : Ok (upd_answer (explain_llm W (List.length mid + 3)
                                    (question s0) q x))
                  = Ok (upd_answer a)) by exact Ht.
      injection E as E. rewrite <- Hq0, E. reflexivity.
Qed.


(** The events of the database path leave [intent] alone. *)
Lemma db_intent (r : Z) (tr : list event) :
  db_path r tr -> forall s, intent (replay s tr) = intent s.
Proof.
  induction 1 as [r q x a _ | r q x a _ _ | r q x rest _ Hle _ IH]; intros s.
  - reflexivity.
  - reflexivity.
  - change (replay s ((generate_query, upd_generate q (r + 1))
                        :: (execute_query, upd_result x) :: rest))
      with (replay (apply_update (apply_update s (upd_generate q (r + 1)))
                      (upd_result x)) rest).
    rewrite IH. reflexivity.
Qed.

(** Every generation but the first of the database path runs on a
    state whose [result] holds the marker. *)
Lemma db_regenerations (r : Z) (tr : list event) :
  db_path r tr ->
  forall s pre u post,
    tr = pre ++ (generate_query, u) :: post -> pre <> [] ->
    contains "Error:" (get (result (replay s pre)) "") = true.
Proof.
  induction 1 as [r q x a _ | r q x a _ _ | r q x rest Hx Hle _ IH];
    intros s pre u post Htr Hpre.
  1,2: destruct pre as [|p0 [|p1 [|p2 [|p3 pre]]]]; try contradiction;
       cbn [app] in Htr; try discriminate Htr;
       injection Htr as _ _ _ Htr; destruct pre; discriminate Htr.
  destruct pre as [|p0 [|p1 pre]]; [contradiction | discriminate Htr |].
  cbn [app] in Htr. injection Htr as <- <- Htr.
  change (replay s ((generate_query, upd_generate q (r + 1))
                      :: (execute_query, upd_result x) :: pre))
    with (replay (apply_update (apply_update s (upd_generate q (r + 1)))
                    (upd_result x)) pre).
  destruct pre as [|p2 pre].
  - cbn. exact Hx.
  - apply (IH _ (p2 :: pre) u post Htr). discriminate.
Qed.

End FinalFacts.

(** * Further statements about agent.py *)


(** X2: the counter is not reset at the start of a run: from a state
    that already holds [retries = r], the generator runs at most
    [max 1 (8 - r)] times, and the final [retries] is [r] plus the
    number of its runs. *)
Theorem budget_counts_from_the_start_value
  (W : World) (s : AgentState) (fuel : nat) :
  (enough_fuel s <= fuel)%nat ->
  exists tr sf,
    graph_invoke W fuel s = Done tr sf
    /\ (Z.of_nat (count_node generate_query tr) <= Z.max 1 (8 - get_retries s))%Z
    /\ get_retries sf
       = (get_retries s + Z.of_nat (count_node generate_query tr))%Z.
Proof.
  intros Hfuel.
  destruct (run_graph W fuel s Hfuel) as (tr & sf & Hrun & Hpath & ->).
  exists tr, (replay s tr). split; [exact Hrun|].
  destruct Hpath as [i a Hi | rest Hpath].
  - split; [cbn; lia|]. change (get_retries s = (get_retries s + 0)%Z). lia.
  - rewrite count_node_cons. cbn [fst node_eqb Nat.add].
    split; [exact (proj2 (db_count_generate _ _ Hpath))|].
    exact (db_retries_count _ _ Hpath (apply_update s (upd_intent "DatabaseQuery"))).
Qed.

Lemma budget_spent_witness :
  exists tr sf,
    graph_invoke always_failing 4 spent_state = Done tr sf
    /\ (Z.of_nat (count_node generate_query tr) <= Z.max 1 (8 - get_retries spent_state))%Z
    /\ get_retries sf
       = (get_retries spent_state + Z.of_nat (count_node generate_query tr))%Z.
Proof.
  apply (budget_counts_from_the_start_value always_failing spent_state 4).
  vm_compute. apply le_n.
Defined.

(** X3: when the classifier writes anything but "DatabaseQuery", the
    run is the classifier and the conversation handler and nothing
    else; the answer is the agent executor's output, and [query],
    [result] and [retries] are what the caller passed in. *)
Theorem conversation_run (W : World) (s : AgentState) (fuel : nat) :
  chosen_intent W s <> "DatabaseQuery" -> (2 <= fuel)%nat ->
  let output := agent_executor W 1 (question s) (get (chat_history s) []) in
  graph_invoke W fuel s
  = Done [(classify_intent, upd_intent (chosen_intent W s));
          (handle_conversation, upd_answer output)]
      {| question := question s; chat_history := chat_history s;
         query := query s; result := result s; answer := Some output;
         retries := retries s; intent := Some (chosen_intent W s) |}.
Proof.
  intros Hne Hfuel output. destruct fuel as [|[|fuel]]; try lia.
  unfold graph_invoke, entry_point.
  assert (Hc : run_node W 0 classify_intent s = Ok (upd_intent (chosen_intent W s)))
    by reflexivity.
  set (s1 := apply_update s (upd_intent (chosen_intent W s))).
  assert (Hnext : next_node classify_intent s1 = Ok handle_conversation).
  { unfold next_node, edges, decide_intent_path.
    replace (intent s1) with (Some (chosen_intent W s)) by reflexivity.
    cbn [getitem bind].
    destruct (String.eqb_spec (chosen_intent W s) "DatabaseQuery");
      [contradiction | reflexivity]. }
  rewrite (run_step W _ _ classify_intent _ s _ ltac:(discriminate) Hc Hnext).
  fold s1.
  rewrite (run_terminal W fuel 1 handle_conversation s1 (upd_answer output)
             eq_refl eq_refl).
  reflexivity.
Qed.

Lemma conversation_run_witness :
  graph_invoke no_selection 25 (initial_state "Aaj kya date?" [])
  = Done [(classify_intent, upd_intent "Conversation");
          (handle_conversation, upd_answer "It is Tuesday.")]
      {| question := "Aaj kya date?"; chat_history := Some [];
         query := None; result := None; answer := Some "It is Tuesday.";
         retries := None; intent := Some "Conversation" |}.
Proof.
  apply (conversation_run no_selection (initial_state "Aaj kya date?" []) 25).
  - discriminate.
  - lia.
Defined.

(** X4: when the classifier writes "DatabaseQuery" and the first
    execution returns a text without the marker, the run is classify,
    generate, execute, summarize; [retries] ends one above its start
    value, and the answer is the summarizer's output for the question,
    the generated query and its result. *)
Theorem first_try_success_run (W : World) (s : AgentState) (fuel : nat) (q : string) :
  chosen_intent W s = "DatabaseQuery" ->
  generate_query_node W 1 (apply_update s (upd_intent "DatabaseQuery"))
  = Ok (upd_generate q (get_retries s + 1)) ->
  contains "Error:" (execute_query_tool W 2 q) = false ->
  (4 <= fuel)%nat ->
  let x := execute_query_tool W 2 q in
  let a := summarize_llm W 3 (question s) q x in
  graph_invoke W fuel s
  = Done [(classify_intent, upd_intent "DatabaseQuery");
          (generate_query, upd_generate q (get_retries s + 1));
          (execute_query, upd_result x);
          (summarize_result, upd_answer a)]
      {| question := question s; chat_history := chat_history s;
         query := Some q; result := Some x; answer := Some a;
         retries := Some (get_retries s + 1)%Z;
         intent := Some "DatabaseQuery" |}.
Proof.
  intros Hi Hq Hx Hfuel x a. destruct fuel as [|[|[|[|fuel]]]]; try lia.
  unfold graph_invoke, entry_point.
  assert (Hc : run_node W 0 classify_intent s = Ok (upd_intent "DatabaseQuery")).
  { cbn [run_node]. unfold classify_intent_node. fold (chosen_intent W s).
    rewrite Hi. reflexivity. }
  rewrite (run_step W _ _ classify_intent generate_query s _
             ltac:(discriminate) Hc eq_refl).
  set (s1 := apply_update s (upd_intent "DatabaseQuery")) in *.
  rewrite (run_step W _ _ generate_query execute_query s1 _
             ltac:(discriminate) Hq eq_refl).
  set (s2 := apply_update s1 (upd_generate q (get_retries s + 1))).
  assert (He : run_node W 2 execute_query s2 = Ok (upd_result x)) by reflexivity.
  destruct (route_success (apply_update s2 (upd_result x)) x eq_refl Hx) as [_ Hn].
  rewrite (run_step W _ _ execute_query summarize_result s2 _
             ltac:(discriminate) He Hn).
  rewrite (run_terminal W fuel 3 summarize_result
             (apply_update s2 (upd_result x)) (upd_answer a) eq_refl eq_refl).
  reflexivity.
Qed.

Lemma first_try_success_witness :
  graph_invoke first_try 25 (initial_state "How many tasks?" [])
  = Done [(classify_intent, upd_intent "DatabaseQuery");
          (generate_query, upd_generate "SELECT COUNT(*) FROM tasks" 1);
          (execute_query, upd_result "[(3,)]");
          (summarize_result, upd_answer "There are 3 tasks.")]
      {| question := "How many tasks?"; chat_history := Some [];
         query := Some "SELECT COUNT(*) FROM tasks"; result := Some "[(3,)]";
         answer := Some "There are 3 tasks."; retries := Some 1%Z;
         intent := Some "DatabaseQuery" |}.
Proof.
  apply (first_try_success_run first_try (initial_state "How many tasks?" []) 25
           "SELECT COUNT(*) FROM tasks").
  - reflexivity.
  - reflexivity.
  - reflexivity.
  - lia.
Defined.

(** X5: every completed run on the database path ends in a state whose
    [result] is what the store returned for the final [query], and
    whose [answer] was made from that query and that result: by the
    summarizer when the result holds no marker, by the failure
    explainer when it holds one, and then [retries] is above 7. *)
Theorem database_run_final_state
  (W : World) (fuel : nat) (s sf : AgentState) (tr : list event) :
  graph_invoke W fuel s = Done tr sf ->
  intent sf = Some "DatabaseQuery" ->
  exists q x,
    query sf = Some q
    /\ result sf = Some x
    /\ x = execute_query_tool W (List.length tr - 2) q
    /\ ((contains "Error:" x = false
         /\ answer sf
            = Some (summarize_llm W (List.length tr - 1) (question s) q x))
        \/ (contains "Error:" x = true
            /\ (7 < get_retries sf)%Z
            /\ answer sf
               = Some (explain_llm W (List.length tr - 1) (question s) q x))).
Proof. exact (database_final_facts W fuel s sf tr). Qed.

Lemma database_run_final_state_witness :
  exists q x,
    Some "SELECT * FROM task" = Some q
    /\ Some "Error: no such table: task" = Some x
    /\ x = execute_query_tool always_failing (4 - 2) q
    /\ ((contains "Error:" x = false
         /\ Some "Please name an existing table."
            = Some (summarize_llm always_failing (4 - 1)
                      (question spent_state) q x))
        \/ (contains "Error:" x = true
            /\ (7 < 9)%Z
            /\ Some "Please name an existing table."
               = Some (explain_llm always_failing (4 - 1)
                         (question spent_state) q x))).
Proof.
  exact (database_run_final_state always_failing 4 spent_state
           {| question := "And how many are done?"; chat_history := Some [];
              query := Some "SELECT * FROM task";
              result := Some "Error: no such table: task";
              answer := Some "Please name an existing table.";
              retries := Some 9%Z; intent := Some "DatabaseQuery" |}
           [(classify_intent, upd_intent "DatabaseQuery");
            (generate_query, upd_generate "SELECT * FROM task" 9);
            (execute_query, upd_result "Error: no such table: task");
            (handle_error, upd_answer "Please name an existing table.")]
           eq_refl eq_refl).
Defined.

(** X6: the query the generator stores holds no code fence: after the
    two replacements, no run of three back quotes is left anywhere. *)
Theorem generated_query_has_no_fence (W : World) (tick : nat) (s : AgentState) :
  exists u q,
    generate_query_node W tick s = Ok u
    /\ u_query u = Some q
    /\ contains "```" q = false.
Proof.
  eexists. eexists. split; [reflexivity|]. split; [reflexivity|].
  apply contains_strip. apply replace_fence_none.
Qed.

(** X7: the query the generator stores neither starts nor ends with a
    blank: stripping it again, at either end, changes nothing. *)
Theorem generated_query_is_stripped (W : World) (tick : nat) (s : AgentState) :
  exists u q,
    generate_query_node W tick s = Ok u
    /\ u_query u = Some q
    /\ lstrip q = q /\ rstrip q = q /\ strip q = q.
Proof.
  eexists. eexists. split; [reflexivity|]. split; [reflexivity|].
  cbn [u_query].
  match goal with
  | |- lstrip (strip ?z) = _ /\ _ =>
      destruct (strip_fixed z) as [Hl Hr]
  end.
  split; [exact Hl|]. split; [exact Hr|].
  unfold strip at 1. rewrite Hl. exact Hr.
Qed.

(** X8: the routers raise exactly when a key they read is absent:
    [decide_intent_path] when [intent] is; [decide_result_status] when
    [result] is, or when [result] holds the marker and [retries] is
    absent.  A result without the marker never makes it read [retries]. *)
Theorem routers_raise_exactly_on_missing_keys (s : AgentState) (e : exn) :
  (decide_intent_path s = Raise e <-> intent s = None /\ e = KeyError "intent")
  /\ (decide_result_status s = Raise e <->
        (result s = None /\ e = KeyError "result")
        \/ (exists x, result s = Some x /\ contains "Error:" x = true
                      /\ retries s = None /\ e = KeyError "retries")).
Proof.
  unfold decide_intent_path, decide_result_status. split; split.
  - destruct (intent s) as [i|]; cbn [getitem bind].
    + destruct (String.eqb i "DatabaseQuery"); discriminate.
    + intros H. injection H as <-. split; reflexivity.
  - intros [-> ->]. reflexivity.
  - destruct (result s) as [x|]; cbn [getitem bind].
    + destruct (contains "Error:" x) eqn:Hx; [|discriminate].
      destruct (retries s) as [n|]; cbn [getitem bind].
      * destruct (n >? 7)%Z; discriminate.
      * intros H. injection H as <-. right. exists x. repeat split.
        exact Hx.
    + intros H. injection H as <-. left. split; reflexivity.
  - intros [[-> ->] | (x & -> & Hx & -> & ->)]; cbn [getitem bind].
    + reflexivity.
    + rewrite Hx. reflexivity.
Qed.

(** X9: a node raises exactly when a key it reads by subscript is
    absent, and the first such key decides: every node but the
    executor raises KeyError on "question" when the dict lacks it;
    otherwise the executor and the failure explainer raise on "query"
    when it is absent, and the summarizer on "result" when it is
    absent, or on "query" when "result" is there and "query" is not.
    With "question" there, the classifier, the conversation handler
    and the generator never raise, and the failure explainer does not
    need "result". *)
Theorem nodes_raise_exactly_on_missing_keys
  (W : World) (tick : nat) (n : node) (d : StateDict) (e : exn) :
  run_node_dict W tick n d = Raise e <->
    (e = KeyError "question" /\ reads_question n = true /\ has_question d = false)
    \/ ((reads_question n = false \/ has_question d = true)
        /\ ((e = KeyError "query" /\ query (given d) = None
             /\ (n = execute_query \/ n = handle_error
                 \/ (n = summarize_result /\ result (given d) <> None)))
            \/ (e = KeyError "result" /\ n = summarize_result
                /\ result (given d) = None))).
Proof.
  unfold run_node_dict.
  destruct (reads_question n) eqn:Hr, (has_question d) eqn:Hq; cbn [andb negb].
  - rewrite run_node_raises. split.
    + intros H. right. split; [right; reflexivity | exact H].
    + intros [(_ & _ & Hf) | [_ H]]; [discriminate Hf | exact H].
  - split.
    + intros H. injection H as <-. left. repeat split.
    + intros [(-> & _ & _) | [[Hf | Hf] _]]; try discriminate Hf. reflexivity.
  - rewrite run_node_raises. split.
    + intros H. right. split; [left; reflexivity | exact H].
    + intros [(_ & Hf & _) | [_ H]]; [discriminate Hf | exact H].
  - rewrite run_node_raises. split.
    + intros H. right. split; [left; reflexivity | exact H].
    + intros [(_ & Hf & _) | [_ H]]; [discriminate Hf | exact H].
Qed.

(** X19: in a run that starts without [result], the generator finds
    the marker in [result], and so adds the repair paragraph with the
    failure text, on every generation but the first. *)
Theorem repair_prompt_exactly_on_regenerations
  (W : World) (fuel : nat) (s sf : AgentState) (tr pre post : list event)
  (u : Update) :
  graph_invoke W fuel s = Done tr sf ->
  result s = None ->
  tr = pre ++ (generate_query, u) :: post ->
  contains "Error:" (get (result (replay s pre)) "")
  = negb (Nat.eqb (count_node generate_query pre) 0).
Proof.
  intros Hrun Hres Htr.
  destruct (done_graph_path W fuel s sf tr Hrun) as [Hpath _].
  destruct Hpath as [i a Hne | rest Hpath].
  - destruct pre as [|p0 [|p1 pre]]; cbn [app] in Htr; try discriminate Htr.
    injection Htr as _ _ Htr. destruct pre; discriminate Htr.
  - destruct pre as [|c pre]; cbn [app] in Htr; [discriminate Htr|].
    injection Htr as <- Htr.
    change (replay s ((classify_intent, upd_intent "DatabaseQuery") :: pre))
      with (replay (apply_update s (upd_intent "DatabaseQuery")) pre).
    destruct pre as [|p pre].
    + cbn. rewrite Hres. reflexivity.
    + rewrite (db_regenerations _ _ Hpath _ (p :: pre) u post Htr)
        by discriminate.
      assert (Hp : fst p = generate_query).
      { destruct Hpath; cbn [app] in Htr; injection Htr as <-; reflexivity. }
      rewrite !count_node_cons. cbn [fst node_eqb]. rewrite Hp. reflexivity.
Qed.

Lemma repair_prompt_witness :
  contains "Error:"
    (get (result (replay (initial_state "How many tasks?" [])
                    [(classify_intent, upd_intent "DatabaseQuery")])) "")
  = negb (Nat.eqb (count_node generate_query
                     [(classify_intent, upd_intent "DatabaseQuery")]) 0).
Proof.
  exact (repair_prompt_exactly_on_regenerations first_try 25
           (initial_state "How many tasks?" [])
           {| question := "How many tasks?"; chat_history := Some [];
              query := Some "SELECT COUNT(*) FROM tasks"; result := Some "[(3,)]";
              answer := Some "There are 3 tasks."; retries := Some 1%Z;
              intent := Some "DatabaseQuery" |}
           [(classify_intent, upd_intent "DatabaseQuery");
            (generate_query, upd_generate "SELECT COUNT(*) FROM tasks" 1);
            (execute_query, upd_result "[(3,)]");
            (summarize_result, upd_answer "There are 3 tasks.")]
           [(classify_intent, upd_intent "DatabaseQuery")]
           [(execute_query, upd_result "[(3,)]");
            (summarize_result, upd_answer "There are 3 tasks.")]
           (upd_generate "SELECT COUNT(*) FROM tasks" 1)
           eq_refl eq_refl eq_refl).
Defined.

(** X20: when the classifier writes "DatabaseQuery", [retries] starts
    at 0 and every execution returns a text with the marker, the run
    is exactly 18 nodes: the generator runs exactly 8 times, [retries]
    ends at 8, and the answer is the failure explainer's, made from
    the last query and the last failure text. *)
Theorem persistent_failure_exhausts_the_budget
  (W : World) (s : AgentState) (fuel : nat) :
  (forall t q, contains "Error:" (execute_query_tool W t q) = true) ->
  chosen_intent W s = "DatabaseQuery" ->
  get_retries s = 0%Z ->
  (18 <= fuel)%nat ->
  exists tr sf q x,
    graph_invoke W fuel s = Done tr sf
    /\ List.length tr = 18%nat
    /\ count_node generate_query tr = 8%nat
    /\ get_retries sf = 8%Z
    /\ query sf = Some q
    /\ result sf = Some x
    /\ answer sf = Some (explain_llm W 17 (question s) q x).
Proof.
  intros Hfail Hi H0 Hfuel.
  destruct (run_graph W fuel s) as (tr & sf & Hrun & Hpath & Hsf).
  { unfold enough_fuel. rewrite H0. cbn. exact Hfuel. }
  assert (Hfirst : forall e post, tr = e :: post ->
                     snd e = upd_intent "DatabaseQuery").
  { intros e post Htr. unfold graph_invoke in Hrun.
    pose proof (run_from_events W _ _ _ _ _ _ Hrun [] e post Htr) as He.
    destruct Hpath as [i a _ | rest _]; injection Htr as <- _; cbn [fst snd] in *.
    - assert (E : Ok (upd_intent (chosen_intent W s)) = Ok (upd_intent i)) by exact He.
      injection E as E. rewrite <- E, Hi. reflexivity.
    - reflexivity. }
  destruct Hpath as [i a Hne | rest Hpath].
  - specialize (Hfirst _ _ eq_refl). cbn [snd] in Hfirst.
    injection Hfirst as Hfirst. contradiction.
  - assert (Hint : intent sf = Some "DatabaseQuery").
    { rewrite Hsf.
      change (replay s ((classify_intent, upd_intent "DatabaseQuery") :: rest))
        with (replay (apply_update s (upd_intent "DatabaseQuery")) rest).
      rewrite (db_intent _ _ Hpath). reflexivity. }
    destruct (database_final_facts W fuel s sf _ Hrun Hint)
      as (q & x & Hq & Hx & Hxe & Hans).
    assert (Hm : contains "Error:" x = true) by (rewrite Hxe; apply Hfail).
    destruct Hans as [[Hc _] | (_ & Hgt & Ha)]; [rewrite Hm in Hc; discriminate Hc|].
    set (s1 := apply_update s (upd_intent "DatabaseQuery")).
    assert (Hsf1 : sf = replay s1 rest) by exact Hsf.
    rewrite H0 in Hpath.
    pose proof (db_final_retries 0 rest Hpath s1) as Hle.
    pose proof (db_retries_count 0 rest Hpath s1) as Hcount.
    rewrite <- Hsf1 in Hle, Hcount.
    assert (Hlen : forall r tr0, db_path r tr0 ->
              List.length tr0 = (2 * count_node generate_query tr0 + 1)%nat).
    { clear. induction 1 as [r q x a _ | r q x a _ _ | r q x rest _ _ _ IH].
      - reflexivity.
      - reflexivity.
      - cbn [List.length]. rewrite IH, !count_node_cons. cbn [fst node_eqb]. lia. }
    specialize (Hlen 0%Z rest Hpath).
    assert (H8 : count_node generate_query rest = 8%nat) by lia.
    exists ((classify_intent, upd_intent "DatabaseQuery") :: rest), sf, q, x.
    split; [exact Hrun|].
    unfold event in *.
    assert (HL : List.length ((classify_intent, upd_intent "DatabaseQuery") :: rest)
                 = 18%nat) by (cbn [List.length]; unfold event in *; lia).
    split; [exact HL|].
    split; [rewrite count_node_cons; cbn [fst node_eqb]; lia|].
    split; [lia|]. split; [exact Hq|]. split; [exact Hx|].
    rewrite HL in Ha. exact Ha || (cbn [Nat.sub] in Ha; exact Ha).
Qed.

Lemma persistent_failure_witness :
  exists tr sf q x,
    graph_invoke always_failing 25 (initial_state "How many tasks?" []) = Done tr sf
    /\ List.length tr = 18%nat
    /\ count_node generate_query tr = 8%nat
    /\ get_retries sf = 8%Z
    /\ query sf = Some q
    /\ result sf = Some x
    /\ answer sf
       = Some (explain_llm always_failing 17
                 (question (initial_state "How many tasks?" [])) q x).
Proof.
  apply (persistent_failure_exhausts_the_budget always_failing
           (initial_state "How many tasks?" []) 25).
  - intros t q. reflexivity.
  - reflexivity.
  - reflexivity.
  - lia.
Defined.

(** * Further properties of script.py *)

Section MoreDictFacts.

Context {V : Type}.

Lemma dict_set_fresh (d : dict V) (key : string) (v : V) :
  ~ In key (keys d) -> dict_set d key v = d ++ [(key, v)].
Proof.
  induction d as [|[k old] d IH]; intros Hfresh; [reflexivity|].
  cbn [dict_set app]. cbn [keys map fst In] in Hfresh.
  destruct (String.eqb_spec k key) as [->|_].
  - exfalso. apply Hfresh. left. reflexivity.
  - rewrite IH; [reflexivity|]. intros Hin. apply Hfresh. right. exact Hin.
Qed.

Variable f : string -> V.

(** Setting keys that are new and distinct appends them in order. *)
Lemma fold_set_fresh (cols : list string) :
  NoDup cols ->
  forall d, (forall c, In c cols -> ~ In c (keys d)) ->
    fold_left (fun acc c => dict_set acc c (f c)) cols d
    = d ++ map (fun c => (c, f c)) cols.
Proof.
  induction 1 as [|c cols Hc _ IH]; intros d Hfresh.
  - cbn. rewrite app_nil_r. reflexivity.
  - cbn [fold_left map]. rewrite dict_set_fresh by (apply Hfresh; left; reflexivity).
    rewrite IH.
    + rewrite <- app_assoc. reflexivity.
    + intros c' Hc' Hin. unfold keys in Hin. rewrite map_app, in_app_iff in Hin.
      destruct Hin as [Hin | [<- | []]].
      * apply (Hfresh c'); [right; exact Hc' | exact Hin].
      * apply Hc. exact Hc'.
Qed.

Lemma fold_set_ext (g : string -> V) (cols : list string) :
  (forall c, f c = g c) ->
  forall d,
    fold_left (fun acc c => dict_set acc c (f c)) cols d
    = fold_left (fun acc c => dict_set acc c (g c)) cols d.
Proof.
  intros Hext. induction cols as [|c cols IH]; intros d; [reflexivity|].
  cbn [fold_left]. rewrite Hext. apply IH.
Qed.

End MoreDictFacts.

Section MoreColumnFacts.

Variable col : string.

Lemma present_app (a b : list string) : present (a ++ b) = present a ++ present b.
Proof. unfold present. apply filter_app. Qed.

Lemma sampled_app (a b : list row) :
  sampled col (a ++ b) = sampled col a ++ sampled col b.
Proof. unfold sampled. apply map_app. Qed.

Lemma forallb_present_perm (p : string -> bool) (l l' : list string) :
  Permutation l l' -> forallb p (present l) = forallb p (present l').
Proof.
  unfold present. induction 1 as [| x l l' _ IH | x y l | l l' l'' _ IH1 _ IH2].
  - reflexivity.
  - cbn [filter]. destruct (negb (String.eqb x "")); cbn [forallb];
      rewrite IH; reflexivity.
  - cbn [filter].
    destruct (negb (String.eqb x "")), (negb (String.eqb y "")); cbn [forallb];
      try reflexivity.
    rewrite !andb_assoc, (andb_comm (p y) (p x)). reflexivity.
  - rewrite IH1. exact IH2.
Qed.

(** The type of a column does not depend on the order of the rows,
    where the texts that pass the integer test are accepted by
    [float]. *)
Lemma column_type_perm (rows rows' : list row) :
  Forall (fun v => integer_pattern v = true -> float_ok v = true)
    (present (sampled col rows)) ->
  Forall (fun v => integer_pattern v = true -> float_ok v = true)
    (present (sampled col rows')) ->
  Permutation rows rows' -> column_type col rows = column_type col rows'.
Proof.
  intros Hall Hall' Hp.
  rewrite (column_type_worded col rows Hall), (column_type_worded col rows' Hall').
  unfold worded_type.
  assert (Hs : Permutation (sampled col rows) (sampled col rows'))
    by (unfold sampled; apply Permutation_map; exact Hp).
  rewrite (forallb_present_perm integer_pattern _ _ Hs),
          (forallb_present_perm float_ok _ _ Hs).
  reflexivity.
Qed.

Lemma from_first_non_integer_app (a b : list string) :
  forallb integer_pattern a = false ->
  from_first_non_integer (a ++ b) = from_first_non_integer a ++ b.
Proof.
  induction a as [|v a IH]; intros H; [discriminate H|].
  cbn [app from_first_non_integer forallb] in *.
  destruct (integer_pattern v); [apply IH; exact H | reflexivity].
Qed.

Lemma in_from_first_non_integer (values : list string) (v : string) :
  In v values -> integer_pattern v = false ->
  In v (from_first_non_integer values).
Proof.
  induction values as [|w values IH]; intros Hin Hv; [contradiction|].
  cbn [from_first_non_integer].
  destruct (integer_pattern w) eqn:Hw; [|exact Hin].
  destruct Hin as [-> | Hin]; [congruence | exact (IH Hin Hv)].
Qed.

(** The texts of cells that are all below 128 are below 128, whatever
    the column. *)
Lemma ascii_cells_sampled (rows : list row) :
  Forall (fun r => Forall (fun item => is_ascii (py_str (snd item)) = true) r) rows ->
  Forall (fun v => integer_pattern v = true -> float_ok v = true)
    (present (sampled col rows)).
Proof.
  intros Hrows. apply Forall_forall. intros v Hv. unfold present, sampled in Hv.
  apply filter_In in Hv as [Hv _]. apply in_map_iff in Hv as (r & <- & Hr).
  rewrite Forall_forall in Hrows. specialize (Hrows r Hr).
  apply integer_pattern_float_ok.
  unfold dict_get. clear Hr.
  induction r as [|[k cell] r IH]; [reflexivity|].
  cbn [lookup]. apply Forall_cons_iff in Hrows as [Hcell Hrest].
  destruct (String.eqb k col); [exact Hcell | exact (IH Hrest)].
Qed.

Lemma forallb_false_in (p : string -> bool) (l : list string) (v : string) :
  In v l -> p v = false -> forallb p l = false.
Proof.
  intros Hin Hp. destruct (forallb p l) eqn:Hall; [|reflexivity].
  rewrite forallb_forall in Hall. rewrite (Hall v Hin) in Hp. discriminate Hp.
Qed.

(** A cell whose text is not empty is among the texts the loop tests. *)
Lemma cell_is_present (rows : list row) (r : row) :
  In r rows -> py_str (dict_get r col (VStr "")) <> "" ->
  In (py_str (dict_get r col (VStr ""))) (present (sampled col rows)).
Proof.
  intros Hin Hne. unfold present, sampled. apply filter_In. split.
  - apply (in_map (fun row => py_str (dict_get row col (VStr ""))) rows r Hin).
  - destruct (String.eqb_spec (py_str (dict_get r col (VStr ""))) "");
      [contradiction | reflexivity].
Qed.

End MoreColumnFacts.

Section NumberFacts.

Lemma digits_of_uint (d : Decimal.uint) :
  all_chars isdigit_char (NilEmpty.string_of_uint d) = true.
Proof. induction d; cbn [NilEmpty.string_of_uint all_chars]; try rewrite IHd; reflexivity. Qed.

Lemma isdigit_of_uint (d : Decimal.uint) :
  isdigit (NilZero.string_of_uint d) = true.
Proof.
  pose proof (digits_of_uint d) as H.
  destruct d; try reflexivity; exact H.
Qed.

(** The text [str] gives for an integer passes the integer test. *)
Lemma integer_pattern_of_int (z : Z) : integer_pattern (py_str (VInt z)) = true.
Proof.
  unfold integer_pattern, py_str.
  destruct z as [|p|p]; cbn [Z.to_int NilZero.string_of_int].
  - reflexivity.
  - rewrite isdigit_of_uint. reflexivity.
  - cbn [tail]. rewrite isdigit_of_uint.
    unfold startswith. cbn [String.prefix].
    destruct (ascii_dec "-" "-") as [_|Hne]; [|contradiction].
    destruct (NilZero.string_of_uint (Pos.to_uint p)); apply orb_true_r.
Qed.

Lemma py_str_of_int_not_empty (z : Z) : py_str (VInt z) <> "".
Proof.
  intros H. pose proof (integer_pattern_of_int z) as Hi. rewrite H in Hi.
  discriminate Hi.
Qed.

End NumberFacts.

Section SanitizeFacts.

Variable p : ascii -> bool.



Lemma filter_chars_none (s : string) :
  all_chars (fun c => negb (p c)) s = true -> filter_chars p s = EmptyString.
Proof.
  induction s as [|c s IH]; [reflexivity|]. cbn [all_chars filter_chars].
  intros H. apply andb_prop in H as [Hc Hs].
  destruct (p c); [discriminate Hc | exact (IH Hs)].
Qed.

End SanitizeFacts.

Section WriteFacts.

Lemma write_to_sqlite_nonempty (data : dict (list row)) (db_name : string) :
  data <> [] ->
  write_to_sqlite data db_name
  = Connect db_name
      :: flat_map (fun item => write_table (fst item) (snd item)) data
      ++ [Commit; Close].
Proof. destruct data; [contradiction | reflexivity]. Qed.

Lemma write_table_skipped (table_name : string) (rows : list row) :
  write_table table_name rows = [] <-> has_header rows = false.
Proof.
  unfold write_table, has_header. destruct rows as [|first rest].
  - split; reflexivity.
  - destruct (table_columns (first :: rest)); split; intros H;
      try reflexivity; discriminate H.
Qed.

End WriteFacts.

(** * Further statements about script.py *)

(** X10: when the keys of the first row are distinct, as the keys of a
    dict are, the inferred types are listed in the order of the retained
    keys, one entry per key: CREATE TABLE and INSERT name the same
    columns in the same order. *)
Theorem inferred_types_follow_the_header (first : row) (rest : list row) :
  NoDup (keys first) ->
  infer_column_types (first :: rest)
  = map (fun c => (c, column_type c (first :: rest))) (table_columns (first :: rest))
  /\ keys (infer_column_types (first :: rest)) = table_columns (first :: rest).
Proof.
  intros Hnd.
  assert (H : infer_column_types (first :: rest)
              = map (fun c => (c, column_type c (first :: rest)))
                  (table_columns (first :: rest))).
  { cbn [infer_column_types table_columns].
    rewrite (fold_set_fresh (fun c => column_type c (first :: rest))).
    - reflexivity.
    - apply NoDup_filter. exact Hnd.
    - intros c _ []. }
  split; [exact H|]. rewrite H. unfold keys. rewrite map_map. cbn [fst].
  apply map_id.
Qed.

Lemma inferred_types_witness :
  infer_column_types ragged_sheet = [("a", "INTEGER"); ("b", "REAL")]
  /\ keys (infer_column_types ragged_sheet) = ["a"; "b"].
Proof.
  apply (inferred_types_follow_the_header
           [("a", VStr "1"); ("", VStr "x"); ("b", VStr "2.5")]
           [[("a", VInt 3); ("z", VStr "late")]]).
  repeat constructor; cbn; intros H; decompose [or] H; discriminate || contradiction.
Defined.

(** X11: the parameters of the INSERT are one tuple per row, in row
    order, each with one value per column; where the row has the key,
    the value is the cell as fetched, not its [str] text. *)
Theorem inserted_values_are_the_cells
  (columns : list string) (rows : list row)
  (i j : nat) (r : row) (c : string) (v : value) :
  nth_error rows i = Some r -> nth_error columns j = Some c ->
  lookup r c = Some v ->
  List.length (values_to_insert columns rows) = List.length rows
  /\ Forall (fun tuple => List.length tuple = List.length columns)
       (values_to_insert columns rows)
  /\ exists tuple,
       nth_error (values_to_insert columns rows) i = Some tuple
       /\ nth_error tuple j = Some v.
Proof.
  intros Hi Hj Hv. unfold values_to_insert. split; [apply length_map|]. split.
  - apply Forall_forall. intros tuple Hin. apply in_map_iff in Hin as (row & <- & _).
    apply length_map.
  - exists (map (fun col => dict_get r col VNone) columns). split.
    + exact (map_nth_error (fun row => map (fun col => dict_get row col VNone) columns)
               i rows Hi).
    + rewrite (map_nth_error (fun col => dict_get r col VNone) j columns Hj).
      unfold dict_get. rewrite Hv. reflexivity.
Qed.

Lemma inserted_values_witness :
  List.length (values_to_insert ["a"; "b"] ragged_sheet) = 2%nat
  /\ Forall (fun tuple => List.length tuple = 2%nat)
       (values_to_insert ["a"; "b"] ragged_sheet)
  /\ exists tuple,
       nth_error (values_to_insert ["a"; "b"] ragged_sheet) 1 = Some tuple
       /\ nth_error tuple 0 = Some (VInt 3).
Proof.
  exact (inserted_values_are_the_cells ["a"; "b"] ragged_sheet 1 0
           [("a", VInt 3); ("z", VStr "late")] "a" (VInt 3)
           eq_refl eq_refl eq_refl).
Defined.

(** X12: a sheet with no row, or whose first row has no non-empty
    key, gets no statement at all, and the statements of the other
    sheets are what they would be without it; yet when it is the only
    sheet the database is still opened, committed and closed. *)
Theorem sheet_without_header_is_skipped
  (table_name db_name : string) (rows : list row)
  (before after : dict (list row)) :
  has_header rows = false ->
  write_table table_name rows = []
  /\ (before ++ after <> [] ->
      write_to_sqlite (before ++ (table_name, rows) :: after) db_name
      = write_to_sqlite (before ++ after) db_name)
  /\ write_to_sqlite [(table_name, rows)] db_name = [Connect db_name; Commit; Close].
Proof.
  intros Hh. pose proof (proj2 (write_table_skipped table_name rows) Hh) as Hw.
  split; [exact Hw|]. split.
  - intros Hne.
    rewrite (write_to_sqlite_nonempty (before ++ (table_name, rows) :: after))
      by (destruct before; discriminate).
    rewrite (write_to_sqlite_nonempty (before ++ after)) by exact Hne.
    rewrite !flat_map_app. cbn [flat_map fst snd]. rewrite Hw. reflexivity.
  - cbn [write_to_sqlite flat_map fst snd]. rewrite Hw. reflexivity.
Qed.

Lemma sheet_without_header_witness :
  write_table "Notes" [[("", VStr "x")]; [("a", VInt 1)]] = []
  /\ (([] : dict (list row)) ++ [("Tasks", ragged_sheet)] <> [] ->
      write_to_sqlite ([] ++ ("Notes", [[("", VStr "x")]; [("a", VInt 1)]])
                          :: [("Tasks", ragged_sheet)]) "sheets.db"
      = write_to_sqlite ([] ++ [("Tasks", ragged_sheet)]) "sheets.db")
  /\ write_to_sqlite [("Notes", [[("", VStr "x")]; [("a", VInt 1)]])] "sheets.db"
     = [Connect "sheets.db"; Commit; Close].
Proof.
  exact (sheet_without_header_is_skipped "Notes" "sheets.db"
           [[("", VStr "x")]; [("a", VInt 1)]] [] [("Tasks", ragged_sheet)]
           eq_refl).
Defined.



(** The accented letter is kept, the blank is dropped. *)
Example sanitize_keeps_accented_letter :
  sanitize (String.append "Donn" (String.append e_acute "es 2024"))
  = String.append "Donn" (String.append e_acute "es2024").
Proof. reflexivity. Qed.

(** X14: a sheet name with nothing that [str.isalnum] accepts is not
    refused by the code: after connecting, the first statement handed
    to the cursor is DROP TABLE IF EXISTS with an empty table name;
    when the engine raises on it, [write_to_sqlite] ends there, with
    no CREATE, no INSERT, no commit and no close. *)
Theorem name_without_alphanumerics_gives_empty_table_name
  (raises : list db_op -> db_op -> bool)
  (table_name db_name : string) (rows : list row) :
  all_chars (fun c => negb (isalnum_char c)) table_name = true ->
  has_header rows = true ->
  raises [] (Connect db_name) = false ->
  raises [Connect db_name] (Execute "DROP TABLE IF EXISTS ") = true ->
  (exists later,
      write_to_sqlite [(table_name, rows)] db_name
      = Connect db_name :: Execute "DROP TABLE IF EXISTS " :: later)
  /\ write_to_sqlite_on raises [(table_name, rows)] db_name
     = ([Connect db_name; Execute "DROP TABLE IF EXISTS "],
        Some (Execute "DROP TABLE IF EXISTS ")).
Proof.
  intros Hn Hh Hconnect Hdrop.
  assert (Hops : exists later,
             write_to_sqlite [(table_name, rows)] db_name
             = Connect db_name :: Execute "DROP TABLE IF EXISTS " :: later).
  { cbn [write_to_sqlite flat_map fst snd].
    unfold write_table, has_header, sanitize in *.
    rewrite (filter_chars_none isalnum_char table_name Hn).
    destruct rows as [|first rest]; [discriminate Hh|].
    destruct (table_columns (first :: rest)); [discriminate Hh|].
    eexists. reflexivity. }
  split; [exact Hops|].
  destruct Hops as [later Hops]. unfold write_to_sqlite_on. rewrite Hops.
  cbn [perform app]. rewrite Hconnect. cbn [perform app]. rewrite Hdrop.
  reflexivity.
Qed.

Lemma name_without_alphanumerics_witness :
  (exists later,
      write_to_sqlite [("- -", ragged_sheet)] "sheets.db"
      = Connect "sheets.db" :: Execute "DROP TABLE IF EXISTS " :: later)
  /\ write_to_sqlite_on refuses_empty_name [("- -", ragged_sheet)] "sheets.db"
     = ([Connect "sheets.db"; Execute "DROP TABLE IF EXISTS "],
        Some (Execute "DROP TABLE IF EXISTS ")).
Proof.
  exact (name_without_alphanumerics_gives_empty_table_name refuses_empty_name
           "- -" "sheets.db" ragged_sheet eq_refl eq_refl eq_refl eq_refl).
Defined.

(** X15: for text of code points below 128, the inferred types do not
    depend on the order of the rows after the first: the early exit of
    the loop and the float test it skips while the integer flag holds
    make no difference. *)
Theorem inferred_types_ignore_row_order (first : row) (rest rest' : list row) :
  Forall (fun r => Forall (fun item => is_ascii (py_str (snd item)) = true) r)
    (first :: rest) ->
  Permutation rest rest' ->
  infer_column_types (first :: rest) = infer_column_types (first :: rest').
Proof.
  intros Hascii Hp. cbn [infer_column_types]. apply fold_set_ext.
  assert (Hp' : Permutation (first :: rest) (first :: rest')) by (apply perm_skip; exact Hp).
  assert (Hascii' : Forall (fun r => Forall (fun item => is_ascii (py_str (snd item)) = true) r)
                      (first :: rest'))
    by (exact (Permutation_Forall Hp' Hascii)).
  intros c. apply column_type_perm; [| | exact Hp'].
  - apply ascii_cells_sampled. exact Hascii.
  - apply ascii_cells_sampled. exact Hascii'.
Qed.

Lemma inferred_types_order_witness :
  infer_column_types
    [[("v", VStr "1")]; [("v", VStr "abc")]; [("v", VStr "2.5")]]
  = infer_column_types
      [[("v", VStr "1")]; [("v", VStr "2.5")]; [("v", VStr "abc")]].
Proof.
  apply (inferred_types_ignore_row_order [("v", VStr "1")]
           [[("v", VStr "abc")]; [("v", VStr "2.5")]]
           [[("v", VStr "2.5")]; [("v", VStr "abc")]]).
  - repeat (apply Forall_cons || apply Forall_nil); reflexivity.
  - apply perm_swap.
Defined.

(** Without that condition the order matters: the superscript two
    before 2.5 gives REAL, after it TEXT. *)
Example superscript_order_matters :
  infer_column_types (column_rows "v" [superscript_two; "2.5"]) = [("v", "REAL")]
  /\ infer_column_types (column_rows "v" ["2.5"; superscript_two]) = [("v", "TEXT")].
Proof. split; reflexivity. Qed.

(** X16: more rows never narrow a type: if a column is INTEGER with
    further rows it was INTEGER without them, and a column that is
    TEXT stays TEXT whatever rows follow. *)
Theorem more_rows_never_narrow_a_type (col : string) (rows more : list row) :
  (column_type col (rows ++ more) = "INTEGER" -> column_type col rows = "INTEGER")
  /\ (column_type col rows = "TEXT" -> column_type col (rows ++ more) = "TEXT").
Proof.
  rewrite !column_type_scanned. unfold scanned_type.
  rewrite sampled_app, present_app, forallb_app.
  destruct (forallb integer_pattern (present (sampled col rows))) eqn:Hi.
  - cbn [andb]. split; intros H; [reflexivity | discriminate H].
  - cbn [andb]. rewrite (from_first_non_integer_app _ _ Hi), forallb_app.
    destruct (forallb float_ok (from_first_non_integer (present (sampled col rows))));
      cbn [andb]; split; intros H; try reflexivity; try discriminate H.
    destruct (forallb float_ok (present (sampled col more))); discriminate H.
Qed.

Lemma more_rows_witness :
  column_type "v" ([[("v", VStr "x")]] ++ [[("v", VStr "7")]]) = "TEXT".
Proof.
  exact (proj2 (more_rows_never_narrow_a_type "v" [[("v", VStr "x")]]
                  [[("v", VStr "7")]]) eq_refl).
Defined.

(** X17: a null or boolean cell is not skipped: [str] turns it into the
    text None, True or False before the test for emptiness, and one
    such cell makes the whole column TEXT. *)
Theorem null_or_boolean_cell_forces_TEXT (col : string) (rows : list row) (r : row) :
  In r rows ->
  (lookup r col = Some VNone \/ exists b, lookup r col = Some (VBool b)) ->
  column_type col rows = "TEXT".
Proof.
  intros Hin Hcell. rewrite column_type_scanned. unfold scanned_type.
  assert (Hv : exists v, py_str (dict_get r col (VStr "")) = v
                         /\ v <> "" /\ integer_pattern v = false
                         /\ float_ok v = false).
  { unfold dict_get. destruct Hcell as [-> | [[|] ->]].
    - exists "None". repeat split. discriminate.
    - exists "True". repeat split. discriminate.
    - exists "False". repeat split. discriminate. }
  destruct Hv as (v & Hv & Hne & Hi & Hf).
  assert (Hp : In v (present (sampled col rows))).
  { rewrite <- Hv. apply cell_is_present; [exact Hin | rewrite Hv; exact Hne]. }
  rewrite (forallb_false_in integer_pattern _ v Hp Hi),
          (forallb_false_in float_ok _ v
             (in_from_first_non_integer _ v Hp Hi) Hf).
  reflexivity.
Qed.

Lemma null_cell_witness :
  column_type "n" [[("n", VInt 1)]; [("n", VNone)]; [("n", VInt 3)]] = "TEXT".
Proof.
  apply (null_or_boolean_cell_forces_TEXT "n"
           [[("n", VInt 1)]; [("n", VNone)]; [("n", VInt 3)]] [("n", VNone)]).
  - right. left. reflexivity.
  - left. reflexivity.
Defined.

(** X18: a column whose cells are all integers, or absent, is INTEGER:
    the text [str] gives for an integer, negative or not, passes the
    integer test. *)
Theorem integer_cells_give_INTEGER (col : string) (rows : list row) :
  Forall (fun r => lookup r col = None \/ exists z, lookup r col = Some (VInt z)) rows ->
  column_type col rows = "INTEGER".
Proof.
  intros Hall. rewrite column_type_scanned. unfold scanned_type.
  assert (Hi : forallb integer_pattern (present (sampled col rows)) = true).
  { apply forallb_forall. intros v Hv. unfold present, sampled in Hv.
    apply filter_In in Hv as [Hv Hne]. apply in_map_iff in Hv as (r & <- & Hr).
    rewrite Forall_forall in Hall. unfold dict_get in *.
    destruct (Hall r Hr) as [Hnone | [z Hz]].
    - rewrite Hnone in Hne. discriminate Hne.
    - rewrite Hz. apply integer_pattern_of_int. }
  rewrite Hi. reflexivity.
Qed.

Lemma integer_cells_witness :
  column_type "n" [[("n", VInt (-12))]; [("m", VInt 1)]; [("n", VInt 0)]] = "INTEGER".
Proof.
  apply (integer_cells_give_INTEGER "n").
  apply Forall_cons; [right; exists (-12)%Z; reflexivity|].
  apply Forall_cons; [left; reflexivity|].
  apply Forall_cons; [right; exists 0%Z; reflexivity|].
  apply Forall_nil.
Defined.
